(** * MITPQML: the Ising and VQC exercise notebooks

    A shallow embedding of the code cells of the two notebooks
    (the three-spin Ising model trained with torch's SGD, and the
    variational quantum classifier for the Titanic data trained with
    PennyLane's Adam optimiser), and the properties their description
    states about them.

    Conventions of the embedding.
    - Python floats are modelled by exact rationals ([Q]); rounding is
      not modelled.
    - A Python exception is a value of [exn]; code that may raise returns
      [res A = exn + A], and no notebook cell contains a handler, so the
      only combinator on [res] is [bind].
    - A quantum function (the body of a [qml.qnode]) queues operations
      on a tape as a side effect: it lives in [QFunc], a state-and-error
      monad over the tape.
    - A cell runs in [M S], a state-and-error monad over what the cell
      keeps in the kernel; what happened in a failed cell stays in the
      kernel.
    - The libraries whose results are not determined by the notebooks
      (the device simulator, the random generators, the optimisers, the
      csv reader, sklearn's splitter and metrics) are parameters of the
      sections below. The array and frame operations of numpy and pandas
      that the cells call are modelled from their documented behaviour
      ([np], [pd]).
    - Cells that only import or plot, and the cells left for the
      student to fill in, are not embedded. The VQC notebook imports
      numpy as [npl] only: the name [np] that the last line of its split
      cell reads is not bound. *)

From Stdlib Require Import String DecimalString ZArith QArith Qabs Bool Lia List.
From Stdlib Require Import FunctionalExtensionality Lqa Qpower.
From Stdlib Require DecimalPos DecimalZ.
From ExtLib Require Import Structures.Monad.
Import ListNotations.
Import MonadNotation.
Local Open Scope monad_scope.
Local Open Scope Q_scope.

Set Implicit Arguments.

(** ** Exceptions *)

Inductive exn : Type :=
| IndexError
| KeyError (key : string)
| KeyErrorNotInIndex (missing : list string)
| NameError (name : string)
| TypeError
| ValueError
| ZeroDivisionError
| LibraryError (origin : string).

Definition res (A : Type) : Type := (exn + A)%type.

#[global] Instance Monad_res : Monad res :=
  {| ret := fun _ a => inr a;
     bind := fun _ _ m k => match m with inl e => inl e | inr a => k a end |}.

(** ** The Python built-ins the notebooks use *)

Module Py.

Definition range (n : nat) : list nat := seq 0 n.

Definition range2 (start stop : nat) : list nat := seq start (stop - start).

Definition zip {A B : Type} (l : list A) (l' : list B) : list (A * B) :=
  combine l l'.

Definition len {A : Type} (l : list A) : nat := length l.

(** [l[i]] for a non-negative index. *)
Definition getitem {A : Type} (l : list A) (i : nat) : res A :=
  match nth_error l i with
  | Some a => inr a
  | None => inl IndexError
  end.

(** [a[i, j]] on a two-dimensional array. *)
Definition getitem2 {A : Type} (a : list (list A)) (i j : nat) : res A :=
  row <- getitem a i ;; getitem row j.

(** [x / n] (true division) of a number by a length. *)
Definition truediv (x : Q) (n : nat) : res Q :=
  match n with
  | O => inl ZeroDivisionError
  | S _ => inr (x / inject_Z (Z.of_nat n))
  end.

Definition abs (x : Q) : Q := Qabs x.

(** List comprehension [[f(a) for a in l]] where [f] may raise. *)
Fixpoint comprehension {A B : Type} (f : A -> res B) (l : list A)
  : res (list B) :=
  match l with
  | [] => inr []
  | a :: l' => b <- f a ;; bs <- comprehension f l' ;; ret (b :: bs)
  end.

End Py.

(** ** Array elements

    An element of a pandas column or of a numpy array built from one:
    an integer, a float, a string, or a missing value. *)

Inductive scalar : Type :=
| Int (z : Z)
| Float (q : Q)
| Str (s : string)
| NaN.

(** ** PennyLane: operations, measurements, devices, quantum functions *)

Module qml.

Inductive Operation : Type :=
| RotOp (phi theta omega : Q) (wire : nat)
| CNOTOp (control target : nat)
| BasisEmbeddingOp (features : list scalar) (wires : list nat).

Inductive Observable : Type :=
| PauliZ (wire : nat).

Inductive Measurement : Type :=
| expval (o : Observable).

Record Device : Type := device
  { short_name : string;
    wires : nat }.

(** A quantum function: every gate call appends to the tape. *)
Definition QFunc (A : Type) : Type := list Operation -> res (A * list Operation).

#[global] Instance Monad_QFunc : Monad QFunc :=
  {| ret := fun _ a tape => inr (a, tape);
     bind := fun _ _ m k tape =>
               match m tape with
               | inl e => inl e
               | inr (a, tape') => k a tape'
               end |}.

Definition queue (o : Operation) : QFunc unit :=
  fun tape => inr (tt, tape ++ [o]).

(** A classical sub-expression of a quantum function, which may raise. *)
Definition classical {A : Type} (r : res A) : QFunc A :=
  fun tape => match r with inl e => inl e | inr a => inr (a, tape) end.

Definition Rot (phi theta omega : Q) (wire : nat) : QFunc unit :=
  queue (RotOp phi theta omega wire).

Definition CNOT (control target : nat) : QFunc unit :=
  queue (CNOTOp control target).

(** An entry that [set(features).issubset({0, 1})] accepts: a number
    equal to 0 or to 1. *)
Definition is_bit (x : scalar) : bool :=
  match x with
  | Int z => (z =? 0)%Z || (z =? 1)%Z
  | Float q => Qeq_bool q 0 || Qeq_bool q 1
  | Str _ => false
  | NaN => false
  end.

(** The features the embedding on [n] wires accepts: [n] entries, each
    0 or 1. *)
Definition basis_state (n : nat) (features : list scalar) : bool :=
  (List.length features =? n)%nat && forallb is_bit features.

(** The constructor raises ValueError for features of another length
    than the wires, or with an entry other than 0 and 1. *)
Definition BasisEmbedding (features : list scalar) (wires : list nat) : QFunc unit :=
  if basis_state (List.length wires) features
  then queue (BasisEmbeddingOp features wires)
  else classical (inl ValueError).

(** [for a in l: body(a)] inside a quantum function. *)
Fixpoint for_each {A : Type} (l : list A) (body : A -> QFunc unit) : QFunc unit :=
  match l with
  | [] => ret tt
  | a :: l' => body a ;; for_each l' body
  end.

(** Running a quantum function on an empty tape: the value it returns
    and the operations it queued, in order. *)
Definition record {A : Type} (f : QFunc A) : res (A * list Operation) := f [].

(** A device simulator: the value of one measurement after the operations
    of a tape, on a given device. *)
Definition Simulator : Type := Device -> list Operation -> Measurement -> res Q.

End qml.

Import qml.

(** ** Notebook cells

    A code cell runs against the state of the kernel, may raise, and
    leaves the kernel in the state reached when it stopped. *)

Module Cell.

Definition M (S A : Type) : Type := S -> res A * S.

#[global] Instance Monad_M {S : Type} : Monad (M S) :=
  {| ret := fun _ a s => (inr a, s);
     bind := fun _ _ m k s =>
               match m s with
               | (inl e, s') => (inl e, s')
               | (inr a, s') => k a s'
               end |}.

Definition get {S : Type} : M S S := fun s => (inr s, s).

Definition modify {S : Type} (f : S -> S) : M S unit := fun s => (inr tt, f s).

(** A pure expression that may raise. *)
Definition eval {S A : Type} (r : res A) : M S A := fun s => (r, s).

(** [for a in l: body(a)] at the top level of a cell. *)
Fixpoint for_ {S A : Type} (l : list A) (body : A -> M S unit) : M S unit :=
  match l with
  | [] => ret tt
  | a :: l' => body a ;; for_ l' body
  end.

(** What a cell writes or calls that the properties below observe:
    a call of the optimiser's [step], a line printed. *)
Inductive event : Type :=
| OptStep
| Printed (step : nat) (values : list Q).

Definition is_step (e : event) : bool :=
  match e with OptStep => true | Printed _ _ => false end.

Definition steps (out : list event) : nat := List.length (filter is_step out).

End Cell.

Import Cell.

(** ** The Ising notebook *)

Module Ising.

Definition dev : Device := device "default.qubit" 3.

Definition circuit (p1 p2 : list Q) : QFunc (list Measurement) :=
  a0 <- classical (Py.getitem p1 0) ;;
  a1 <- classical (Py.getitem p1 1) ;;
  a2 <- classical (Py.getitem p1 2) ;;
  Rot a0 a1 a2 1 ;;
  b0 <- classical (Py.getitem p2 0) ;;
  b1 <- classical (Py.getitem p2 1) ;;
  b2 <- classical (Py.getitem p2 2) ;;
  Rot b0 b1 b2 2 ;;
  ret (map (fun i => expval (PauliZ i)) (Py.range 3)).

Section OnDevice.

Variable measure : Simulator.

(** [@qml.qnode(dev, interface="torch")] applied to [circuit]. *)
Definition circuit_qnode (p1 p2 : list Q) : res (list Q) :=
  '(ms, tape) <- record (circuit p1 p2) ;;
  Py.comprehension (measure dev tape) ms.

Definition cost (var1 var2 : list Q) : res Q :=
  spins <- circuit_qnode var1 var2 ;;
  s0 <- Py.getitem spins 0 ;;
  s1 <- Py.getitem spins 1 ;;
  s1' <- Py.getitem spins 1 ;;
  s2 <- Py.getitem spins 2 ;;
  ret (- (1 * s0 * s1) - (-1 * s1' * s2)).

End OnDevice.

(** The Hamiltonian as the notebook's text states it,
    [H = - sum_<ij> J_ij sigma_i sigma_j] over nearest neighbours of a
    chain, [J] listing the couplings of the successive pairs. *)
Fixpoint Hamiltonian_terms (J sigma : list Q) : Q :=
  match J, sigma with
  | j :: J', si :: ((sj :: _) as sigma') => j * si * sj + Hamiltonian_terms J' sigma'
  | _, _ => 0
  end.

Definition Hamiltonian (J sigma : list Q) : Q := - Hamiltonian_terms J sigma.

(** "the coupling matrix can be set to J = [-1, 1]" *)
Definition J_stated : list Q := [-1; 1].

(** *** The optimisation cells *)

(** The two parameter tensors are objects that the optimiser updates in
    place; [var_init] and the entries of [var_pt] hold references to
    them, not copies. *)
Inductive tensor_ref : Type := ref_p1 | ref_p2.

Record kernel : Type := Kernel
  { p1 : list Q;
    p2 : list Q;
    cost_init : Q;
    var_pt : list (list tensor_ref);
    cost_pt : list Q;
    x : list nat;
    out : list event }.

Definition set_params (a b : list Q) (s : kernel) : kernel :=
  Kernel a b (cost_init s) (var_pt s) (cost_pt s) (x s) (out s).
Definition set_cost_init (c : Q) (s : kernel) : kernel :=
  Kernel (p1 s) (p2 s) c (var_pt s) (cost_pt s) (x s) (out s).
Definition set_var_pt (v : list (list tensor_ref)) (s : kernel) : kernel :=
  Kernel (p1 s) (p2 s) (cost_init s) v (cost_pt s) (x s) (out s).
Definition set_cost_pt (c : list Q) (s : kernel) : kernel :=
  Kernel (p1 s) (p2 s) (cost_init s) (var_pt s) c (x s) (out s).
Definition set_x (v : list nat) (s : kernel) : kernel :=
  Kernel (p1 s) (p2 s) (cost_init s) (var_pt s) (cost_pt s) v (out s).
Definition emit (e : event) (s : kernel) : kernel :=
  Kernel (p1 s) (p2 s) (cost_init s) (var_pt s) (cost_pt s) (x s) (out s ++ [e]).

(** [np.pi], the double nearest to pi. *)
Definition np_pi : Q := 884279719003555 # 281474976710656.

Section Torch.

Variable measure : Simulator.

(** torch's global generator: [manual_seed] and [rand(n)]. *)
Variable generator : Type.
Variable manual_seed : Z -> generator.
Variable rand : nat -> generator -> list Q * generator.

(** One step of [torch.optim.SGD] with learning rate [lr] on the
    parameters [(p1, p2)]: the library evaluates the closure (which
    clears the gradients, evaluates the cost and back-propagates)
    and returns the updated parameters, or raises. *)
Variable sgd_step :
  Q -> (list Q -> list Q -> res Q) -> list Q * list Q -> res (list Q * list Q).

Definition var_init : list tensor_ref := [ref_p1; ref_p2].

Definition cell_init : M kernel unit :=
  let g := manual_seed 56 in
  let '(r1, g) := rand 3 g in
  let '(r2, g) := rand 3 g in
  modify (set_params (map (Qmult np_pi) r1) (map (Qmult np_pi) r2)) ;;
  s <- get ;;
  c <- eval (cost measure (p1 s) (p2 s)) ;;
  modify (set_cost_init c).

Definition closure (a b : list Q) : res Q := cost measure a b.

(** [opt.step(closure)] *)
Definition opt_step : M kernel unit :=
  modify (emit OptStep) ;;
  s <- get ;;
  '(a, b) <- eval (sgd_step (1 # 10) closure (p1 s, p2 s)) ;;
  modify (set_params a b).

Definition loop_body (i : nat) : M kernel unit :=
  opt_step ;;
  if ((i + 1) mod 5 =? 0)%nat then
    modify (fun s => set_x (x s ++ [i]) s) ;;
    s <- get ;;
    let p1n := p1 s in
    let p2n := p2 s in
    costn <- eval (cost measure p1n p2n) ;;
    modify (fun s => set_var_pt (var_pt s ++ [[ref_p1; ref_p2]]) s) ;;
    modify (fun s => set_cost_pt (cost_pt s ++ [costn]) s) ;;
    modify (emit (Printed (i + 1) (costn :: p1n ++ p2n)))
  else ret tt.

Definition cell_optimise : M kernel unit :=
  modify (set_var_pt [var_init]) ;;
  modify (fun s => set_cost_pt [cost_init s] s) ;;
  modify (set_x [0%nat]) ;;
  for_ (Py.range 100) loop_body.

Definition notebook : M kernel unit := cell_init ;; cell_optimise.

End Torch.

Definition fresh : kernel := Kernel [] [] 0 [] [] [] [].

End Ising.

(** ** numpy arrays and pandas frames

    A column has a dtype; a frame is an ordered list of named columns.
    Where a name occurs twice the first column is meant. *)

Module np.

(** A float array of three dimensions. *)
Definition tensor : Type := list (list (list Q)).

Definition ones (n : nat) : list Q := repeat 1 n.

(** [numpy.sign] *)
Definition sign (v : Q) : Q :=
  match Qcompare v 0 with
  | Lt => -1
  | Eq => 0
  | Gt => 1
  end.

(** [a - b] on two float arrays of one dimension. *)
Fixpoint subtract (a b : list Q) : res (list Q) :=
  match a, b with
  | [], [] => inr []
  | u :: a', v :: b' => r <- subtract a' b' ;; ret ((u - v) :: r)
  | _, _ => inl ValueError
  end.

(** [a[index]] with an array of indices. *)
Definition take {A : Type} (a : list A) (index : list nat) : res (list A) :=
  Py.comprehension (Py.getitem a) index.

(** Filling an array of a given length from successive draws. *)
Fixpoint fill {G A : Type} (n : nat) (draw : G -> A * G) (g : G) : list A * G :=
  match n with
  | O => ([], g)
  | S n' =>
      let '(v, g) := draw g in
      let '(vs, g) := fill n' draw g in
      (v :: vs, g)
  end.

(** [numpy.random.randn(d0, d1, d2)], in C order. *)
Definition randn {G : Type} (standard_normal : G -> Q * G) (d0 d1 d2 : nat)
  : G -> tensor * G :=
  fill d0 (fill d1 (fill d2 standard_normal)).

(** [c * a] for a scalar [c]. *)
Definition scale (c : Q) (a : tensor) : tensor :=
  map (map (map (Qmult c))) a.

(** [a.shape == (d0, d1, d2)] *)
Definition has_shape (d0 d1 d2 : nat) (a : tensor) : Prop :=
  List.length a = d0 /\
  Forall (fun m => List.length m = d1 /\ Forall (fun r => List.length r = d2) m) a.

Definition has_shapeb (d0 d1 d2 : nat) (a : tensor) : bool :=
  (List.length a =? d0)%nat &&
  forallb (fun m => (List.length m =? d1)%nat &&
                    forallb (fun r => (List.length r =? d2)%nat) m) a.

End np.

Module pd.

Inductive column : Type :=
| IntCol (v : list Z)
| FloatCol (v : list (option Q))
| StrCol (v : list (option string)).

Definition DataFrame : Type := list (string * column).

Definition cells (c : column) : list scalar :=
  match c with
  | IntCol v => map Int v
  | FloatCol v => map (fun o => match o with Some q => Float q | None => NaN end) v
  | StrCol v => map (fun o => match o with Some s => Str s | None => NaN end) v
  end.

Definition size (c : column) : nat := List.length (cells c).

Definition names (df : DataFrame) : list string := map fst df.

(** [df[k]] *)
Fixpoint getcol (df : DataFrame) (k : string) : res column :=
  match df with
  | [] => inl (KeyError k)
  | (k', c) :: df' => if String.eqb k' k then inr c else getcol df' k
  end.

(** [df[k] = c]: replaces the column of that name, or appends one. *)
Fixpoint setcol (df : DataFrame) (k : string) (c : column) : DataFrame :=
  match df with
  | [] => [(k, c)]
  | (k', c') :: df' =>
      if String.eqb k' k then (k, c) :: df' else (k', c') :: setcol df' k c
  end.

(** The labels of [ks] that the frame has no column for, in the order
    of [ks]. *)
Definition missing (df : DataFrame) (ks : list string) : list string :=
  filter (fun k => match getcol df k with inl _ => true | inr _ => false end) ks.

(** [df[[k1, ..., kn]]]: when labels are missing, one KeyError whose
    message names all of them. *)
Definition select (df : DataFrame) (ks : list string) : res DataFrame :=
  match missing df ks with
  | [] => Py.comprehension (fun k => c <- getcol df k ;; ret (k, c)) ks
  | k :: ks' => inl (KeyErrorNotInIndex (k :: ks'))
  end.

Definition str_of_int (z : Z) : string := NilZero.string_of_int (Z.to_int z).

(** [c.astype(str)]; [repr] formats a float. *)
Definition astype_str (repr : Q -> string) (c : column) : column :=
  match c with
  | IntCol v => StrCol (map (fun z => Some (str_of_int z)) v)
  | FloatCol v =>
      StrCol (map (fun o => match o with
                            | Some q => Some (repr q)
                            | None => Some "nan"%string
                            end) v)
  | StrCol v =>
      StrCol (map (fun o => match o with
                            | Some s => Some s
                            | None => Some "nan"%string
                            end) v)
  end.

Fixpoint insert_sorted {A : Type} (le : A -> A -> bool) (a : A) (l : list A) : list A :=
  match l with
  | [] => [a]
  | b :: l' => if le a b then a :: l else b :: insert_sorted le a l'
  end.

Definition sort {A : Type} (le : A -> A -> bool) (l : list A) : list A :=
  fold_right (insert_sorted le) [] l.

Definition present {A : Type} (v : list (option A)) : list A :=
  flat_map (fun o => match o with Some a => [a] | None => [] end) v.

(** The categories of a string column: its distinct values, sorted. *)
Definition categories (v : list (option string)) : list string :=
  sort String.leb (nodup string_dec (present v)).

Definition indicator (cat : string) (v : list (option string)) : column :=
  IntCol (map (fun o => match o with
                        | Some s => if String.eqb s cat then 1%Z else 0%Z
                        | None => 0%Z
                        end) v).

Definition is_object (c : column) : bool :=
  match c with StrCol _ => true | _ => false end.

(** [pd.get_dummies(df)]: numeric columns are kept, and every string
    column [k] is replaced by one 0/1 column [k_v] per category [v]. *)
Definition get_dummies (df : DataFrame) : DataFrame :=
  filter (fun kc => negb (is_object (snd kc))) df ++
  flat_map (fun kc =>
              match snd kc with
              | StrCol v =>
                  map (fun cat => ((fst kc ++ "_" ++ cat)%string, indicator cat v))
                      (categories v)
              | _ => []
              end) df.

(** [pd.concat(dfs, axis=1)] of frames over the same rows. *)
Definition concat (dfs : list DataFrame) : DataFrame := List.concat dfs.

Definition median_of (l : list Q) : option Q :=
  let sorted := sort Qle_bool l in
  let n := List.length sorted in
  match n with
  | O => None
  | _ =>
      if Nat.odd n then Some (nth (n / 2) sorted 0)
      else Some ((nth (n / 2 - 1) sorted 0 + nth (n / 2) sorted 0) / 2)
  end.

(** [c.median()], missing values skipped. *)
Definition median (c : column) : res (option Q) :=
  match c with
  | IntCol v => inr (median_of (map inject_Z v))
  | FloatCol v => inr (median_of (present v))
  | StrCol _ => inl TypeError
  end.

(** [c.fillna(x)] for a float [x] (possibly missing itself). *)
Definition fillna (c : column) (x : option Q) : column :=
  match c, x with
  | FloatCol v, Some q =>
      FloatCol (map (fun o => match o with Some _ => o | None => Some q end) v)
  | _, _ => c
  end.

(** [c.map(f)] for an integer-valued [f]. *)
Definition map_int (f : scalar -> res Z) (c : column) : res column :=
  v <- Py.comprehension f (cells c) ;; ret (IntCol v).

Definition nrows (df : DataFrame) : nat :=
  match df with
  | [] => O
  | (_, c) :: _ => size c
  end.

(** [df.values]: the rows of the frame. *)
Definition values (df : DataFrame) : list (list scalar) :=
  map (fun i => map (fun kc => nth i (cells (snd kc)) NaN) df)
      (Py.range (nrows df)).

(** [a * 2] on the values of a column. *)
Definition times2 (c : column) : column :=
  match c with
  | IntCol v => IntCol (map (fun z => (z * 2)%Z) v)
  | FloatCol v => FloatCol (map (option_map (fun q => q * 2)) v)
  | StrCol v => StrCol (map (option_map (fun s => (s ++ s)%string)) v)
  end.

(** The values of a column as floats, as an arithmetic operation with
    a float array converts them.  The rationals have no missing value:
    a missing entry is reported as [ValueError]. *)
Definition floats (c : column) : res (list Q) :=
  match c with
  | IntCol v => inr (map inject_Z v)
  | FloatCol v =>
      Py.comprehension (fun o => match o with
                                 | Some q => inr q
                                 | None => inl ValueError
                                 end) v
  | StrCol _ => inl TypeError
  end.

End pd.

(** ** The VQC notebook *)

Module VQC.

Definition n_qubits : nat := 4.
Definition n_layers : nat := 2.
Definition dev : Device := device "default.qubit" n_qubits.

Definition dataEmbedding (x : list scalar) : QFunc unit :=
  BasisEmbedding x (Py.range2 0 n_qubits).

Definition layer (W : list (list Q)) : QFunc unit :=
  for_each (Py.range n_qubits) (fun i =>
    a <- classical (Py.getitem2 W i 0) ;;
    b <- classical (Py.getitem2 W i 1) ;;
    c <- classical (Py.getitem2 W i 2) ;;
    Rot a b c i) ;;
  for_each (Py.range (n_qubits - 1)) (fun i =>
    CNOT i (i + 1)) ;;
  CNOT (n_qubits - 1) 0.

Definition circuitBuild (weights : np.tensor) (x : list scalar)
  : QFunc Measurement :=
  dataEmbedding x ;;
  for_each weights (fun W => layer W) ;;
  ret (expval (PauliZ 0)).

Definition squareLoss (labels predictions : list Q) : res Q :=
  let loss := 0 in
  let loss :=
    fold_left (fun loss '(l, p) => loss + (l - p) ^ 2)
              (Py.zip labels predictions) loss in
  Py.truediv loss (Py.len labels).

(** [1e-5] *)
Definition tolerance : Q := 1 # 100000.

Definition accuracy (labels predictions : list Q) : res Q :=
  let loss := 0%Z in
  let loss :=
    fold_left (fun loss '(l, p) =>
                 if Qlt_le_dec (Py.abs (l - p)) tolerance
                 then (loss + 1)%Z else loss)
              (Py.zip labels predictions) loss in
  Py.truediv (inject_Z loss) (Py.len labels).

Section OnDevice.

Variable measure : Simulator.

(** [@qml.qnode(dev, interface="autograd")] applied to [circuitBuild]. *)
Definition circuitBuild_qnode (weights : np.tensor) (x : list scalar)
  : res Q :=
  '(m, tape) <- record (circuitBuild weights x) ;;
  measure dev tape m.

Definition variational_classifier
           (weights : np.tensor) (bias : Q) (x : list scalar) : res Q :=
  v <- circuitBuild_qnode weights x ;;
  ret (v + bias).

Definition cost (weights : np.tensor) (bias : Q)
           (X : list (list scalar)) (Y : list Q) : res Q :=
  predictions <- Py.comprehension (fun x => variational_classifier weights bias x) X ;;
  squareLoss Y predictions.

End OnDevice.

(** *** The data cells *)

Definition model_vars : list string :=
  ["is_child"; "Pclass_1"; "Pclass_2"; "Sex_female"]%string.

(** [lambda x: 1 if x < 12 else 0] *)
Definition is_child_lambda (x : scalar) : res Z :=
  match x with
  | Int z => inr (if (z <? 12)%Z then 1%Z else 0%Z)
  | Float q => inr (if Qlt_le_dec q 12 then 1%Z else 0%Z)
  | NaN => inr 0%Z
  | Str _ => inl TypeError
  end.

(** [y.values * 2 - npl.ones(len(y))] *)
Definition encode (y : pd.column) : res (list Q) :=
  a <- pd.floats (pd.times2 y) ;;
  np.subtract a (np.ones (pd.size y)).

Definition n_it : nat := 35.

(** [math.floor(len(X_train) / n_it)] *)
Definition batch_size {A : Type} (X_train : list A) : nat :=
  (Py.len X_train / n_it)%nat.

(** What the training cells keep in the kernel and update: the model,
    numpy's global generator, the optimiser, the output. *)
Record kernel (G O : Type) : Type := Kernel
  { weights : np.tensor;
    bias : Q;
    np_random : G;
    opt : O;
    out : list event }.

Arguments Kernel {G O}.
Arguments weights {G O}.
Arguments bias {G O}.
Arguments np_random {G O}.
Arguments opt {G O}.
Arguments out {G O}.

Section Libraries.

(** pandas and sklearn *)
Variable read_csv : string -> res pd.DataFrame.
Variable repr : Q -> string.
Variable train_test_split :
  pd.DataFrame -> pd.column -> pd.column ->
  res (pd.DataFrame * pd.DataFrame * pd.column * pd.column).
Variables accuracy_score precision_score recall_score f1_score :
  list Q -> list Q -> res Q.

(** the device simulator *)
Variable measure : Simulator.

(** numpy's generator and PennyLane's Adam optimiser *)
Variables G O : Type.
Variable seed : Z -> G.
Variable standard_normal : G -> Q * G.
Variable randint : nat -> nat -> nat -> G -> res (list nat) * G.
Variable AdamOptimizer : Q -> O.
Variable adam_step :
  O ->
  (np.tensor -> Q -> list (list scalar) -> list Q -> res Q) ->
  np.tensor -> Q -> list (list scalar) -> list Q ->
  res (np.tensor * Q * O).

Definition set_model (w : np.tensor) (b : Q) (s : kernel G O) :=
  Kernel w b (np_random s) (opt s) (out s).
Definition set_random (g : G) (s : kernel G O) :=
  Kernel (weights s) (bias s) g (opt s) (out s).
Definition set_opt (o : O) (s : kernel G O) :=
  Kernel (weights s) (bias s) (np_random s) o (out s).
Definition emit (e : event) (s : kernel G O) :=
  Kernel (weights s) (bias s) (np_random s) (opt s) (out s ++ [e]).

Definition cell_read : res pd.DataFrame :=
  train <- read_csv "TitanicData/train.csv" ;;
  c <- pd.getcol train "Pclass" ;;
  let train := pd.setcol train "Pclass" (pd.astype_str repr c) in
  sel <- pd.select train ["Pclass"; "Sex"; "Embarked"]%string ;;
  ret (pd.concat [train; pd.get_dummies sel]).

Definition cell_age (train : pd.DataFrame) : res pd.DataFrame :=
  age <- pd.getcol train "Age" ;;
  age' <- pd.getcol train "Age" ;;
  m <- pd.median age' ;;
  let train := pd.setcol train "Age" (pd.fillna age m) in
  age <- pd.getcol train "Age" ;;
  child <- pd.map_int is_child_lambda age ;;
  ret (pd.setcol train "is_child" child).

(** The split cell up to its last line: what it has bound by then. *)
Definition cell_split_data (train : pd.DataFrame)
  : res (list (list scalar) * pd.DataFrame * pd.column * pd.column) :=
  X <- pd.select train model_vars ;;
  y <- pd.getcol train "Survived" ;;
  strat <- pd.getcol train "Survived" ;;
  '(X_train, X_test, y_train, y_test) <- train_test_split X y strat ;;
  let X_train := pd.values X_train in
  ret (X_train, X_test, y_train, y_test).

(** The last line,
    [Y_train = npl.array(y_train.values * 2 - np.ones(len(y_train)), ...)]:
    the left operand is evaluated, then the name [np] is looked up. *)
Definition cell_split (train : pd.DataFrame)
  : res (list (list scalar) * pd.DataFrame * list Q * pd.column) :=
  '(X_train, X_test, y_train, y_test) <- cell_split_data train ;;
  let doubled := pd.times2 y_train in
  Y_train <- inl (NameError "np") ;;
  ret (X_train, X_test, Y_train, y_test).

Definition cell_init : M (kernel G O) (np.tensor * Q) :=
  modify (set_random (seed 0)) ;;
  s <- get ;;
  let '(r, g) := np.randn standard_normal n_layers n_qubits 3 (np_random s) in
  modify (set_random g) ;;
  let weights_init := np.scale (1 # 100) r in
  let bias_init := 0 in
  ret (weights_init, bias_init).

Definition cell_opt : M (kernel G O) unit :=
  modify (set_opt (AdamOptimizer (1 # 8))).

(** [weights, bias, _, _ = opt.step(cost, weights, bias, X_batch, Y_batch)] *)
Definition opt_step (X_batch : list (list scalar)) (Y_batch : list Q)
  : M (kernel G O) unit :=
  modify (emit OptStep) ;;
  s <- get ;;
  '(w, b, o) <- eval (adam_step (opt s) (cost measure)
                                (weights s) (bias s) X_batch Y_batch) ;;
  modify (fun s => set_opt o (set_model w b s)).

(** [[npl.sign(variational_classifier(weights, bias, x)) for x in X]] *)
Definition predict (w : np.tensor) (b : Q) (X : list (list scalar))
  : res (list Q) :=
  Py.comprehension
    (fun x => v <- variational_classifier measure w b x ;; ret (np.sign v)) X.

Definition loop_body (X_train : list (list scalar)) (Y_train : list Q)
           (batch : nat) (it : nat) : M (kernel G O) unit :=
  batch_index <- (fun s =>
                    let '(r, g) := randint 0 (Py.len X_train) batch (np_random s) in
                    (r, set_random g s)) ;;
  X_batch <- eval (np.take X_train batch_index) ;;
  Y_batch <- eval (np.take Y_train batch_index) ;;
  opt_step X_batch Y_batch ;;
  s <- get ;;
  predictions <- eval (predict (weights s) (bias s) X_train) ;;
  acc <- eval (accuracy Y_train predictions) ;;
  c <- eval (cost measure (weights s) (bias s) X_train Y_train) ;;
  modify (emit (Printed (it + 1) [c; acc])).

Definition cell_train_for (its : list nat)
           (weights_init : np.tensor) (bias_init : Q)
           (X_train : list (list scalar)) (Y_train : list Q) (batch : nat)
  : M (kernel G O) unit :=
  modify (set_model weights_init bias_init) ;;
  for_ its (loop_body X_train Y_train batch).

(** [for it in range(n_it): ...] *)
Definition cell_train := cell_train_for (Py.range n_it).

Definition cell_test (X_test : pd.DataFrame) (y_test : pd.column)
  : M (kernel G O) Q :=
  let X_test := pd.values X_test in
  Y_test <- eval (encode y_test) ;;
  s <- get ;;
  predictions <- eval (predict (weights s) (bias s) X_test) ;;
  _ <- eval (accuracy_score Y_test predictions) ;;
  _ <- eval (precision_score Y_test predictions) ;;
  _ <- eval (recall_score Y_test predictions) ;;
  eval (f1_score Y_test predictions).

Definition notebook : M (kernel G O) Q :=
  train <- eval cell_read ;;
  train <- eval (cell_age train) ;;
  '(X_train, X_test, Y_train, y_test) <- eval (cell_split train) ;;
  '(weights_init, bias_init) <- cell_init ;;
  cell_opt ;;
  cell_train weights_init bias_init X_train Y_train (batch_size X_train) ;;
  cell_test X_test y_test.

End Libraries.

End VQC.

(** ** The properties' vocabulary *)

Module Stated.

(** The entry [W[i, j]] of a two-dimensional array. *)
Definition entry (W : list (list Q)) (i j : nat) : Q := nth j (nth i W []) 0.


(** The same as decidable tests: a vector of at least three angles; a
    slice whose first [n_qubits] rows exist and are such vectors. *)
Definition angles_ok (p : list Q) : bool := (3 <=? List.length p)%nat.

Definition slice_okb (W : list (list Q)) : bool :=
  (VQC.n_qubits <=? List.length W)%nat && forallb angles_ok (firstn VQC.n_qubits W).

(** One Rot per wire, then the ring of CNOTs. *)
Definition layer_gates (W : list (list Q)) : list Operation :=
  [ RotOp (entry W 0 0) (entry W 0 1) (entry W 0 2) 0;
    RotOp (entry W 1 0) (entry W 1 1) (entry W 1 2) 1;
    RotOp (entry W 2 0) (entry W 2 1) (entry W 2 2) 2;
    RotOp (entry W 3 0) (entry W 3 1) (entry W 3 2) 3;
    CNOTOp 0 1; CNOTOp 1 2; CNOTOp 2 3; CNOTOp 3 0 ].

Definition Qsum (l : list Q) : Q := fold_right Qplus 0 l.

(** [(1/n) * sum_i (labels_i - predictions_i)^2], [n] the length of
    [labels]. *)
Definition mean_squared_error (labels predictions : list Q) : Q :=
  let n := List.length labels in
  (1 / inject_Z (Z.of_nat n)) *
  Qsum (map (fun i => (nth i labels 0 - nth i predictions 0) ^ 2) (seq 0 n)).

(** The number of indices [i < n] with [|labels_i - predictions_i| < 1e-5]. *)
Definition agreements (labels predictions : list Q) : nat :=
  let n := List.length labels in
  List.length
    (filter (fun i =>
               if Qlt_le_dec (Qabs (nth i labels 0 - nth i predictions 0)) (1 # 100000)
               then true else false)
            (seq 0 n)).

Definition boolean (v : scalar) : Prop := v = Int 0 \/ v = Int 1.

Definition boolean_vector (x : list scalar) : Prop :=
  List.length x = 4%nat /\ Forall boolean x.

(** An age strictly less than 12 (a missing age is not). *)
Definition under_12 (age : scalar) : Prop :=
  match age with
  | Int z => (z < 12)%Z
  | Float q => q < 12
  | _ => False
  end.

(** All columns of a frame have [n] entries. *)
Definition rectangular (n : nat) (df : pd.DataFrame) : Prop :=
  Forall (fun kc => pd.size (snd kc) = n) df.

(** A column of [n] integers, each 0 or 1. *)
Definition binary_column (n : nat) (c : pd.column) : Prop :=
  exists zs, c = pd.IntCol zs /\ List.length zs = n /\
             Forall (fun z => z = 0 \/ z = 1)%Z zs.

End Stated.

Import Stated.

(** ** Stand-ins for the libraries

    Small executable instances of the library parameters, on which the
    embedding runs: a simulator that tracks one sign per wire (exact on
    basis states; a rotation by more than 3/2 flips the sign), counters
    for the generators, optimisers that evaluate their objective and
    leave the parameters where they are, a forty-row data file. *)

Module Toy.

Fixpoint update (l : list Q) (i : nat) (f : Q -> Q) : list Q :=
  match l, i with
  | [], _ => []
  | a :: l', O => f a :: l'
  | a :: l', S i' => a :: update l' i' f
  end.

Definition apply (spins : list Q) (o : Operation) : list Q :=
  match o with
  | RotOp _ theta _ w => update spins w (fun v => if Qle_bool theta (3 # 2) then v else - v)
  | CNOTOp c t => update spins t (fun v => nth c spins 0 * v)
  | BasisEmbeddingOp x ws =>
      fold_left (fun sp '(xi, w) =>
                   match xi with
                   | Int 1 => update sp w Qopp
                   | _ => sp
                   end) (combine x ws) spins
  end.

Definition measure : Simulator := fun d tape m =>
  match m with
  | expval (PauliZ w) =>
      match nth_error (fold_left apply tape (repeat 1 (wires d))) w with
      | Some v => inr v
      | None => inl (LibraryError "wire")
      end
  end.

Definition manual_seed (z : Z) : nat := Z.to_nat z.

Definition rand (n : nat) (g : nat) : list Q * nat := (repeat (1 # 2) n, S g).

Definition sgd_step (lr : Q) (closure : list Q -> list Q -> res Q)
           (p : list Q * list Q) : res (list Q * list Q) :=
  _ <- closure (fst p) (snd p) ;; ret p.

Definition standard_normal (g : nat) : Q * nat := (inject_Z (Z.of_nat g), S g).

Definition randint (low high n : nat) (g : nat) : res (list nat) * nat :=
  if (low <? high)%nat then (inr (repeat (low + g mod (high - low))%nat n), S g)
  else (inl ValueError, g).

Definition adam_step (o : nat)
           (f : np.tensor -> Q -> list (list scalar) -> list Q -> res Q)
           (w : np.tensor) (b : Q) (X : list (list scalar)) (Y : list Q)
  : res (np.tensor * Q * nat) :=
  _ <- f w b X Y ;; ret (w, b, S o).

Definition repeat_rows {A : Type} (k : nat) (l : list A) : list A :=
  List.concat (repeat l k).

Definition csv : pd.DataFrame :=
  [ ("Survived"%string, pd.IntCol (repeat_rows 10 [0; 1; 1; 0]%Z));
    ("Pclass"%string, pd.IntCol (repeat_rows 10 [3; 1; 2; 1]%Z));
    ("Sex"%string,
      pd.StrCol (repeat_rows 10 [Some "male"; Some "female"; Some "female"; Some "male"]%string));
    ("Age"%string, pd.FloatCol (repeat_rows 10 [Some 22; Some 4; None; Some (23 # 2)]));
    ("Embarked"%string,
      pd.StrCol (repeat_rows 10 [Some "S"; Some "C"; None; Some "Q"]%string)) ].

Definition read_csv (path : string) : res pd.DataFrame :=
  if String.eqb path "TitanicData/train.csv" then inr csv
  else inl (LibraryError "FileNotFoundError").


Definition repr (q : Q) : string := "0.0"%string.

Definition head_column (n : nat) (c : pd.column) : pd.column :=
  match c with
  | pd.IntCol v => pd.IntCol (firstn n v)
  | pd.FloatCol v => pd.FloatCol (firstn n v)
  | pd.StrCol v => pd.StrCol (firstn n v)
  end.

Definition tail_column (n : nat) (c : pd.column) : pd.column :=
  match c with
  | pd.IntCol v => pd.IntCol (skipn n v)
  | pd.FloatCol v => pd.FloatCol (skipn n v)
  | pd.StrCol v => pd.StrCol (skipn n v)
  end.

(** The first 36 rows for training, the rest for the test. *)
Definition train_test_split (X : pd.DataFrame) (y strat : pd.column)
  : res (pd.DataFrame * pd.DataFrame * pd.column * pd.column) :=
  inr (map (fun kc => (fst kc, head_column 36 (snd kc))) X,
       map (fun kc => (fst kc, tail_column 36 (snd kc))) X,
       head_column 36 y, tail_column 36 y).

(** The frame after the loading cell, after the age cell, and the
    selected feature columns. *)
Definition train0 : pd.DataFrame :=
  match VQC.cell_read read_csv repr with inr t => t | inl _ => [] end.

Definition train : pd.DataFrame :=
  match VQC.cell_age train0 with inr t => t | inl _ => [] end.

Definition X : pd.DataFrame :=
  match pd.select train VQC.model_vars with inr t => t | inl _ => [] end.

(** The two frames of features that the splitter returns. *)
Definition X_train : pd.DataFrame :=
  map (fun kc => (fst kc, head_column 36 (snd kc))) X.

Definition X_test : pd.DataFrame :=
  map (fun kc => (fst kc, tail_column 36 (snd kc))) X.

Definition kernel0 : VQC.kernel nat nat := VQC.Kernel [] 0 O O [].

Definition vqc_notebook : M (VQC.kernel nat nat) Q :=
  VQC.notebook read_csv repr train_test_split
               VQC.accuracy VQC.accuracy VQC.accuracy VQC.accuracy
               measure manual_seed standard_normal randint
               (fun _ => O) adam_step.

Definition ising_notebook : M Ising.kernel unit :=
  Ising.notebook measure manual_seed rand sgd_step.

(** The Ising kernel after the initialisation cell. *)
Definition ising_ready : Ising.kernel :=
  snd (Ising.cell_init measure manual_seed rand Ising.fresh).


End Toy.

(** ** The drawing cell of the VQC notebook

    The cell that builds one layer as a qiskit circuit, for its picture:
    a circuit is its number of qubits and its instructions in order; a
    parameter of a rotation is its name. *)

Module qiskit.

Inductive Instruction : Type :=
| rz (parameter : string) (qubit : nat)
| ry (parameter : string) (qubit : nat)
| cx (control target : nat).

Record QuantumCircuit : Type := Circuit
  { num_qubits : nat;
    data : list Instruction }.

Definition append (i : Instruction) (c : QuantumCircuit) : QuantumCircuit :=
  Circuit (num_qubits c) (data c ++ [i]).

End qiskit.

Module Drawing.

(** ["p%i" % i] *)
Definition format_i (letter : string) (i : nat) : string :=
  (letter ++ pd.str_of_int (Z.of_nat i))%string.

Definition qc : qiskit.QuantumCircuit :=
  let qc := qiskit.Circuit 4 [] in
  let qc :=
    fold_left (fun qc i =>
                 let qc := qiskit.append (qiskit.rz (format_i "p" i) i) qc in
                 let qc := qiskit.append (qiskit.ry (format_i "t" i) i) qc in
                 qiskit.append (qiskit.rz (format_i "w" i) i) qc)
              (Py.range 4) qc in
  let qc :=
    fold_left (fun qc i => qiskit.append (qiskit.cx i (i + 1)) qc) (Py.range 3) qc in
  qiskit.append (qiskit.cx 3 0) qc.

End Drawing.

(** ** Vocabulary of the further properties *)

Module Observed.

(** The wires an operation acts on, the wire a measurement reads. *)
Definition op_wires (o : Operation) : list nat :=
  match o with
  | RotOp _ _ _ w => [w]
  | CNOTOp c t => [c; t]
  | BasisEmbeddingOp _ ws => ws
  end.

Definition measured_wire (m : Measurement) : nat :=
  match m with expval (PauliZ w) => w end.

Definition is_rot (o : Operation) : bool :=
  match o with RotOp _ _ _ _ => true | _ => false end.

(** Elementary gates: the notebook's text gives
    [R(phi, theta, omega) = RZ(omega) RY(theta) RZ(phi)], so a Rot is
    RZ(phi), then RY(theta), then RZ(omega); a basis embedding flips the
    wires whose feature is 1. *)
Inductive Gate : Type :=
| RZ (angle : Q) (wire : nat)
| RY (angle : Q) (wire : nat)
| CX (control target : nat)
| PauliX (wire : nat).

Definition decompose (o : Operation) : list Gate :=
  match o with
  | RotOp phi theta omega w => [RZ phi w; RY theta w; RZ omega w]
  | CNOTOp c t => [CX c t]
  | BasisEmbeddingOp x ws =>
      flat_map (fun xw => match fst xw with Int 1 => [PauliX (snd xw)] | _ => [] end)
               (combine x ws)
  end.

(** A qiskit instruction with its parameter given a value. *)
Definition assign (value : string -> Q) (i : qiskit.Instruction) : Gate :=
  match i with
  | qiskit.rz p q => RZ (value p) q
  | qiskit.ry p q => RY (value p) q
  | qiskit.cx c t => CX c t
  end.

(** The angles of a weight slice as values of the drawing's parameters:
    [p_i], [t_i], [w_i] for row [i]. *)
Definition angles_of (W : list (list Q)) (name : string) : Q :=
  match find (fun kv => String.eqb (fst kv) name)
             (flat_map (fun i => [(Drawing.format_i "p" i, entry W i 0);
                                  (Drawing.format_i "t" i, entry W i 1);
                                  (Drawing.format_i "w" i, entry W i 2)])
                       (Py.range VQC.n_qubits)) with
  | Some kv => snd kv
  | None => 0
  end.

(** The part of a weight slice and of an angle vector that is read. *)
Definition read_angles (p : list Q) : list Q := firstn 3 p.

Definition read_slice (W : list (list Q)) : list (list Q) :=
  map read_angles (firstn VQC.n_qubits W).

(** Two numbers differ by less than [1e-5]. *)
Definition close (l p : Q) : Prop := Qabs (l - p) < 1 # 100000.

(** A label or a prediction of the classifier: plus or minus one. *)
Definition sign_value (v : Q) : Prop := v == 1 \/ v == -1.

(** The frame has a column of that name. *)
Definition has_column (df : pd.DataFrame) (k : string) : bool :=
  existsb (String.eqb k) (pd.names df).

(** Those of the names that the frame has no column for. *)
Definition absent (df : pd.DataFrame) (ks : list string) : list string :=
  filter (fun k => negb (has_column df k)) ks.

(** A feature vector that the embedding takes: four entries 0 or 1,
    queued on wires 0 to 3. *)
Definition embedded (x : list scalar) : Prop :=
  boolean_vector x /\
  record (VQC.dataEmbedding x) = inr (tt, [BasisEmbeddingOp x [0; 1; 2; 3]%nat]).

(** The iterations of the Ising loop that log: [(i + 1) % 5 == 0]. *)
Definition logs (i : nat) : bool := ((i + 1) mod 5 =? 0)%nat.

Definition logged (k : nat) : list nat := filter logs (seq 0 k).

Definition printed_steps (out : list event) : list nat :=
  flat_map (fun e => match e with Printed k _ => [k] | OptStep => [] end) out.

(** The records of the Ising optimisation cell after [k] iterations,
    [printed0] being the steps printed before the cell. *)
Definition recorded (printed0 : list nat) (k : nat) (s : Ising.kernel) : Prop :=
  Ising.x s = 0%nat :: logged k /\
  List.length (Ising.cost_pt s) = S (List.length (logged k)) /\
  List.length (Ising.var_pt s) = S (List.length (logged k)) /\
  Forall (fun entry => entry = [Ising.ref_p1; Ising.ref_p2]) (Ising.var_pt s) /\
  printed_steps (Ising.out s) = printed0 ++ map (fun i => i + 1)%nat (logged k).

(** The same records when an iteration has raised. *)
Definition interrupted (s : Ising.kernel) : Prop :=
  List.length (Ising.var_pt s) = List.length (Ising.cost_pt s) /\
  (List.length (Ising.x s) = List.length (Ising.cost_pt s) \/
   List.length (Ising.x s) = S (List.length (Ising.cost_pt s))) /\
  Forall (fun entry => entry = [Ising.ref_p1; Ising.ref_p2]) (Ising.var_pt s).

(** Where the model in the kernel comes from: it is the initial one, or
    what a step of the optimiser returned, called with the cost function
    on a batch taken from the training data. *)
Definition from_step {G O : Type} (measure : Simulator)
           (adam_step :
              O ->
              (np.tensor -> Q -> list (list scalar) -> list Q -> res Q) ->
              np.tensor -> Q -> list (list scalar) -> list Q ->
              res (np.tensor * Q * O))
           (X : list (list scalar)) (Y : list Q)
           (weights_init : np.tensor) (bias_init : Q)
           (s : VQC.kernel G O) : Prop :=
  (VQC.weights s = weights_init /\ VQC.bias s = bias_init) \/
  exists o w b batch_index X_batch Y_batch,
    np.take X batch_index = inr X_batch /\
    np.take Y batch_index = inr Y_batch /\
    adam_step o (VQC.cost measure) w b X_batch Y_batch
    = inr (VQC.weights s, VQC.bias s, VQC.opt s).

(** The log of the VQC training cell after [k] iterations, and when an
    iteration has raised; [printed0] and [steps0] are the steps printed
    and the optimiser steps taken before the cell. *)
Definition trained {G O : Type} (printed0 : list nat) (steps0 : nat)
           (k : nat) (s : VQC.kernel G O) : Prop :=
  printed_steps (VQC.out s) = printed0 ++ seq 1 k /\
  steps (VQC.out s) = (steps0 + k)%nat.

Definition stopped {G O : Type} (printed0 : list nat) (steps0 : nat)
           (s : VQC.kernel G O) : Prop :=
  exists k, (k < VQC.n_it)%nat /\
            printed_steps (VQC.out s) = printed0 ++ seq 1 k /\
            (steps (VQC.out s) = (steps0 + k)%nat \/
             steps (VQC.out s) = (steps0 + k + 1)%nat).

End Observed.

Import Observed.

(** * Properties *)

Unset Implicit Arguments.

(** ** Running quantum functions *)






Lemma dataEmbedding_outcome (x : list scalar) (tape : list Operation) :
  VQC.dataEmbedding x tape
  = if basis_state VQC.n_qubits x
    then inr (tt, tape ++ [BasisEmbeddingOp x [0; 1; 2; 3]%nat])
    else inl ValueError.
Proof.
  unfold VQC.dataEmbedding, BasisEmbedding.
  change (List.length (Py.range2 0 VQC.n_qubits)) with VQC.n_qubits.
  destruct (basis_state VQC.n_qubits x); reflexivity.
Qed.


Lemma circuit_outcome (p1 p2 : list Q) :
  record (Ising.circuit p1 p2)
  = if angles_ok p1 && angles_ok p2
    then inr ([expval (PauliZ 0); expval (PauliZ 1); expval (PauliZ 2)],
              [RotOp (nth 0 p1 0) (nth 1 p1 0) (nth 2 p1 0) 1;
               RotOp (nth 0 p2 0) (nth 1 p2 0) (nth 2 p2 0) 2])
    else inl IndexError.
Proof.
  destruct p1 as [|a0 [|a1 [|a2 p1]]]; try reflexivity;
    destruct p2 as [|b0 [|b1 [|b2 p2]]]; reflexivity.
Qed.

Lemma layer_outcome (W : list (list Q)) (tape : list Operation) :
  VQC.layer W tape
  = if slice_okb W then inr (tt, tape ++ layer_gates W) else inl IndexError.
Proof.
  destruct W as [|[|a0 [|b0 [|c0 r0]]] W]; try reflexivity;
    destruct W as [|[|a1 [|b1 [|c1 r1]]] W]; try reflexivity;
    destruct W as [|[|a2 [|b2 [|c2 r2]]] W]; try reflexivity;
    destruct W as [|[|a3 [|b3 [|c3 r3]]] W]; try reflexivity.
  cbn. unfold CNOT, queue. rewrite <- !app_assoc. reflexivity.
Qed.

Lemma layers_outcome (weights : np.tensor) (tape : list Operation) :
  for_each weights (fun W => VQC.layer W) tape
  = if forallb slice_okb weights
    then inr (tt, tape ++ flat_map layer_gates weights)
    else inl IndexError.
Proof.
  revert tape. induction weights as [|W weights IH]; intros tape.
  - cbn. rewrite app_nil_r. reflexivity.
  - cbn [for_each bind Monad_QFunc forallb flat_map].
    rewrite layer_outcome. destruct (slice_okb W); cbn [andb]; [|reflexivity].
    rewrite IH. destruct (forallb slice_okb weights); [|reflexivity].
    rewrite app_assoc. reflexivity.
Qed.

(** C2. Each circuit function queues one fixed sequence of gates, for
    every input: the values of the arguments are copied into the gates
    and never tested by the function, and only a library call that raises
    stops it: indexing an argument that is too short (IndexError) or, in
    circuitBuild, the embedding of features that are not four entries
    0 or 1 (ValueError, raised first). The Ising circuit queues one Rot
    on wire 1 and one Rot on wire 2 and returns the Pauli-Z expectations
    of wires 0, 1, 2; a VQC layer queues one Rot on each of the four
    wires and then CNOTs on (0,1), (1,2), (2,3), (3,0); circuitBuild
    queues the data embedding, then the gates of one layer per weight
    slice, and returns the Pauli-Z expectation of wire 0. *)
Theorem circuits_queue_fixed_gate_sequences :
  (forall p1 p2 : list Q,
      record (Ising.circuit p1 p2)
      = if angles_ok p1 && angles_ok p2
        then inr ([expval (PauliZ 0); expval (PauliZ 1); expval (PauliZ 2)],
                  [RotOp (nth 0 p1 0) (nth 1 p1 0) (nth 2 p1 0) 1;
                   RotOp (nth 0 p2 0) (nth 1 p2 0) (nth 2 p2 0) 2])
        else inl IndexError) /\
  (forall W : list (list Q),
      record (VQC.layer W)
      = if slice_okb W
        then inr (tt,
                  [RotOp (entry W 0 0) (entry W 0 1) (entry W 0 2) 0;
                   RotOp (entry W 1 0) (entry W 1 1) (entry W 1 2) 1;
                   RotOp (entry W 2 0) (entry W 2 1) (entry W 2 2) 2;
                   RotOp (entry W 3 0) (entry W 3 1) (entry W 3 2) 3;
                   CNOTOp 0 1; CNOTOp 1 2; CNOTOp 2 3; CNOTOp 3 0])
        else inl IndexError) /\
  (forall (weights : np.tensor) (x : list scalar),
      record (VQC.circuitBuild weights x)
      = if basis_state 4 x
        then if forallb slice_okb weights
             then inr (expval (PauliZ 0),
                       BasisEmbeddingOp x [0; 1; 2; 3]%nat
                         :: flat_map layer_gates weights)
             else inl IndexError
        else inl ValueError).
Proof.
  split; [|split].
  - apply circuit_outcome.
  - intros W. unfold record. rewrite layer_outcome. reflexivity.
  - intros weights x. unfold record, VQC.circuitBuild.
    cbn [bind Monad_QFunc]. rewrite dataEmbedding_outcome.
    change VQC.n_qubits with 4%nat.
    destruct (basis_state 4 x); [|reflexivity].
    rewrite layers_outcome. destruct (forallb slice_okb weights); reflexivity.
Qed.

(** ** The Ising energy *)

(** C1 (the code departs from it). Whenever the circuit's three Pauli-Z
    expectation values are [1, -1, -1], the cost function returns +2;
    the Hamiltonian the notebook states, with couplings J = [-1, 1],
    has energy -2 at that configuration; the two differ. *)
Theorem cost_at_known_configuration :
  forall (measure : Simulator) (var1 var2 : list Q),
    Ising.circuit_qnode measure var1 var2 = inr [1; -1; -1] ->
    Ising.cost measure var1 var2 = inr 2 /\
    Ising.Hamiltonian Ising.J_stated [1; -1; -1] = -2 /\
    ~ 2 == -2.
Proof.
  intros measure var1 var2 H. split; [|split].
  - unfold Ising.cost. rewrite H. reflexivity.
  - reflexivity.
  - discriminate.
Qed.

Lemma cost_at_known_configuration_witness :
  Ising.circuit_qnode Toy.measure [0; 2; 0] [0; 2; 0] = inr [1; -1; -1] /\
  Ising.cost Toy.measure [0; 2; 0] [0; 2; 0] = inr 2.
Proof.
  split.
  - vm_compute. reflexivity.
  - apply (cost_at_known_configuration Toy.measure [0; 2; 0] [0; 2; 0]).
    vm_compute. reflexivity.
Defined.

(** ** Loss and accuracy *)

Lemma index_map_zip {B : Type} (g : Q -> Q -> B) (l p : list Q) :
  List.length l = List.length p ->
  map (fun i => g (nth i l 0) (nth i p 0)) (seq 0 (List.length l))
  = map (fun lp => g (fst lp) (snd lp)) (combine l p).
Proof.
  revert p. induction l as [|a l IH]; intros [|b p] H; try discriminate.
  - reflexivity.
  - cbn [List.length seq map combine nth fst snd]. f_equal.
    rewrite <- seq_shift, map_map. cbn [nth].
    apply IH. injection H as H. exact H.
Qed.

Lemma fold_square_sum (lp : list (Q * Q)) (acc : Q) :
  fold_left (fun loss '(l, p) => loss + (l - p) ^ 2) lp acc
  == acc + Qsum (map (fun lp => (fst lp - snd lp) ^ 2) lp).
Proof.
  revert acc. induction lp as [|[l p] lp IH]; intros acc.
  - cbn. ring.
  - cbn [fold_left map Qsum fold_right fst snd]. rewrite IH.
    unfold Qsum. ring.
Qed.

Lemma truediv_positive (v : Q) (n : nat) :
  (0 < n)%nat -> Py.truediv v n = inr (v / inject_Z (Z.of_nat n)).
Proof. destruct n; [lia | reflexivity]. Qed.

(** C8. On two sequences of one length, not empty, squareLoss returns
    the mean squared error (1/n) * sum_i (labels_i - predictions_i)^2;
    on empty labels the division by the length is a division by zero
    and no value is returned. *)
Theorem squareLoss_is_mean_squared_error :
  (forall labels predictions : list Q,
      List.length labels = List.length predictions ->
      labels <> [] ->
      exists loss,
        VQC.squareLoss labels predictions = inr loss /\
        loss == mean_squared_error labels predictions) /\
  (forall predictions : list Q,
      VQC.squareLoss [] predictions = inl ZeroDivisionError).
Proof.
  split.
  - intros labels predictions Hlen Hne.
    assert (Hn : (0 < List.length labels)%nat)
      by (destruct labels; [contradiction | simpl; lia]).
    unfold VQC.squareLoss, Py.len, Py.zip.
    rewrite (truediv_positive _ (List.length labels) Hn).
    eexists. split; [reflexivity|].
    unfold mean_squared_error.
    rewrite fold_square_sum, (index_map_zip (fun a b => (a - b) ^ 2) labels predictions Hlen).
    unfold Qdiv. ring.
  - intros predictions. reflexivity.
Qed.

Lemma squareLoss_is_mean_squared_error_witness :
  exists loss, VQC.squareLoss [1; -1; 1] [1; 1; -1] = inr loss /\
               loss == mean_squared_error [1; -1; 1] [1; 1; -1].
Proof.
  apply (proj1 squareLoss_is_mean_squared_error [1; -1; 1] [1; 1; -1]).
  - reflexivity.
  - discriminate.
Defined.

Lemma filter_map_length {A B : Type} (f : B -> bool) (g : A -> B) (l : list A) :
  List.length (filter f (map g l)) = List.length (filter (fun a => f (g a)) l).
Proof.
  induction l as [|a l IH]; [reflexivity|].
  cbn [map filter]. destruct (f (g a)); cbn [List.length]; rewrite IH; reflexivity.
Qed.

Lemma index_count_zip (t : Q -> Q -> bool) (l p : list Q) :
  List.length l = List.length p ->
  List.length (filter (fun i => t (nth i l 0) (nth i p 0)) (seq 0 (List.length l)))
  = List.length (filter (fun lp => t (fst lp) (snd lp)) (combine l p)).
Proof.
  revert p. induction l as [|a l IH]; intros [|b p] H; try discriminate.
  - reflexivity.
  - injection H as H.
    cbn [List.length seq filter combine nth fst snd].
    rewrite <- seq_shift.
    destruct (t a b); cbn [List.length];
      rewrite filter_map_length; cbn [nth]; rewrite (IH p H); reflexivity.
Qed.

Lemma fold_count (lp : list (Q * Q)) (acc : Z) :
  fold_left (fun loss '(l, p) =>
               if Qlt_le_dec (Py.abs (l - p)) VQC.tolerance
               then (loss + 1)%Z else loss) lp acc
  = (acc + Z.of_nat
             (List.length
                (filter (fun lp => if Qlt_le_dec (Qabs (fst lp - snd lp)) (1 # 100000)
                                   then true else false) lp)))%Z.
Proof.
  revert acc. induction lp as [|[l p] lp IH]; intros acc.
  - cbn. lia.
  - cbn [fold_left filter fst snd]. rewrite IH.
    unfold Py.abs, VQC.tolerance.
    destruct (Qlt_le_dec (Qabs (l - p)) (1 # 100000)); cbn [List.length]; lia.
Qed.

Lemma fraction_in_unit_interval (k n : nat) :
  (k <= n)%nat -> (0 < n)%nat ->
  0 <= inject_Z (Z.of_nat k) / inject_Z (Z.of_nat n) /\
  inject_Z (Z.of_nat k) / inject_Z (Z.of_nat n) <= 1.
Proof.
  intros Hk Hn.
  assert (Hpos : 0 < inject_Z (Z.of_nat n)).
  { change 0 with (inject_Z 0). rewrite <- Zlt_Qlt. lia. }
  split.
  - apply Qle_shift_div_l; [exact Hpos|].
    rewrite Qmult_0_l. change 0 with (inject_Z 0). rewrite <- Zle_Qle. lia.
  - apply Qle_shift_div_r; [exact Hpos|].
    rewrite Qmult_1_l. rewrite <- Zle_Qle. lia.
Qed.

(** C9. On two sequences of one length, not empty, accuracy returns k/n,
    where n is that length and k the number of indices i with
    |labels_i - predictions_i| < 1e-5; the value lies in [0, 1]. *)
Theorem accuracy_is_fraction_of_agreements :
  forall labels predictions : list Q,
    List.length labels = List.length predictions ->
    labels <> [] ->
    exists acc,
      VQC.accuracy labels predictions = inr acc /\
      acc == inject_Z (Z.of_nat (agreements labels predictions))
             / inject_Z (Z.of_nat (List.length labels)) /\
      0 <= acc /\ acc <= 1.
Proof.
  intros labels predictions Hlen Hne.
  assert (Hn : (0 < List.length labels)%nat)
    by (destruct labels; [contradiction | simpl; lia]).
  unfold VQC.accuracy, Py.len, Py.zip.
  rewrite (truediv_positive _ (List.length labels) Hn), fold_count.
  eexists. split; [reflexivity|].
  unfold agreements.
  rewrite (index_count_zip
             (fun a b => if Qlt_le_dec (Qabs (a - b)) (1 # 100000) then true else false)
             labels predictions Hlen).
  cbn [Z.add].
  split; [reflexivity|].
  apply fraction_in_unit_interval; [|exact Hn].
  etransitivity; [apply filter_length_le|].
  rewrite length_combine. lia.
Qed.

Lemma accuracy_is_fraction_of_agreements_witness :
  exists acc,
    VQC.accuracy [1; -1; 1] [1; 1; 1] = inr acc /\
    acc == inject_Z (Z.of_nat (agreements [1; -1; 1] [1; 1; 1])) / inject_Z 3 /\
    0 <= acc /\ acc <= 1.
Proof.
  apply (accuracy_is_fraction_of_agreements [1; -1; 1] [1; 1; 1]).
  - reflexivity.
  - discriminate.
Defined.

(** ** The label encoding *)

Lemma subtract_ones (a : list Q) :
  np.subtract a (np.ones (List.length a)) = inr (map (fun u => u - 1) a).
Proof.
  induction a as [|u a IH]; [reflexivity|].
  cbn [List.length np.ones repeat np.subtract].
  unfold np.ones in IH. rewrite IH. reflexivity.
Qed.

Lemma encode_int (ys : list Z) :
  VQC.encode (pd.IntCol ys) = inr (map (fun y => inject_Z (y * 2) - 1) ys).
Proof.
  unfold VQC.encode. cbn [pd.times2 pd.floats bind Monad_res].
  unfold pd.size. cbn [pd.cells].
  replace (List.length (map Int ys))
    with (List.length (map inject_Z (map (fun z => (z * 2)%Z) ys)))
    by (rewrite !length_map; reflexivity).
  rewrite subtract_ones, !map_map. reflexivity.
Qed.

Lemma encoded_label_inverse (y : Z) :
  (inject_Z (y * 2) - 1 + 1) / 2 == inject_Z y.
Proof. rewrite inject_Z_mult. change (inject_Z 2) with 2. field. Qed.

(** C10. The split cell does not reach the encoding of its labels. Its
    last line reads the name np, which the notebook never binds (numpy is
    imported as npl): the cell never returns, and whenever the selection
    of the model's columns, the Survived column and the splitter succeed,
    it has bound X_train, X_test, y_train and y_test and raises
    NameError for np, so that Y_train is not bound. The test cell writes
    the same expression with npl.ones, and there the encoding is
    y -> 2*y - 1, one encoded label per label: it sends 0 to -1 and 1
    to +1, labels in {0, 1} to labels in {-1, +1}, is injective, and is
    inverted by Y -> (Y + 1)/2. *)
Theorem split_cell_raises_NameError :
  (forall (train_test_split :
             pd.DataFrame -> pd.column -> pd.column ->
             res (pd.DataFrame * pd.DataFrame * pd.column * pd.column))
          (train : pd.DataFrame) r,
      VQC.cell_split train_test_split train <> inr r) /\
  (forall (train_test_split :
             pd.DataFrame -> pd.column -> pd.column ->
             res (pd.DataFrame * pd.DataFrame * pd.column * pd.column))
          (train X X_train X_test : pd.DataFrame) (y y_train y_test : pd.column),
      pd.select train VQC.model_vars = inr X ->
      pd.getcol train "Survived" = inr y ->
      train_test_split X y y = inr (X_train, X_test, y_train, y_test) ->
      VQC.cell_split_data train_test_split train
      = inr (pd.values X_train, X_test, y_train, y_test) /\
      VQC.cell_split train_test_split train = inl (NameError "np")) /\
  (forall ys : list Z,
      VQC.encode (pd.IntCol ys) = inr (map (fun y => inject_Z (y * 2) - 1) ys)) /\
  (forall y : Z,
      inject_Z (y * 2) - 1 == 2 * inject_Z y - 1 /\
      (inject_Z (y * 2) - 1 + 1) / 2 == inject_Z y) /\
  VQC.encode (pd.IntCol [0; 1]%Z) = inr [-1; 1] /\
  (forall (y y' : Z) (Y Y' : Q),
      VQC.encode (pd.IntCol [y]) = inr [Y] ->
      VQC.encode (pd.IntCol [y']) = inr [Y'] ->
      Y == Y' -> y = y') /\
  (forall (ys : list Z) (Ys : list Q),
      Forall (fun y => y = 0 \/ y = 1)%Z ys ->
      VQC.encode (pd.IntCol ys) = inr Ys ->
      List.length Ys = List.length ys /\
      Forall (fun Y => Y = -1 \/ Y = 1) Ys).
Proof.
  assert (Hrange : forall ys : list Z,
             Forall (fun y => y = 0 \/ y = 1)%Z ys ->
             Forall (fun Y => Y = -1 \/ Y = 1)
                    (map (fun y => inject_Z (y * 2) - 1) ys)).
  { intros ys H. induction H as [|y ys [-> | ->] _ IH]; cbn [map].
    - constructor.
    - constructor; [left; reflexivity | exact IH].
    - constructor; [right; reflexivity | exact IH]. }
  split; [|split; [|split; [|split; [|split; [|split]]]]].
  - intros tts train r. unfold VQC.cell_split.
    destruct (VQC.cell_split_data tts train) as [e|[[[X_train X_test] y_train] y_test]];
      discriminate.
  - intros tts train X X_train X_test y y_train y_test HX Hy Hsplit.
    assert (Hdata : VQC.cell_split_data tts train
                    = inr (pd.values X_train, X_test, y_train, y_test)).
    { unfold VQC.cell_split_data. rewrite HX. cbn [bind Monad_res].
      rewrite Hy. cbn [bind Monad_res]. rewrite Hsplit. reflexivity. }
    split; [exact Hdata|].
    unfold VQC.cell_split. rewrite Hdata. reflexivity.
  - apply encode_int.
  - intros y. split; [|apply encoded_label_inverse].
    rewrite inject_Z_mult. change (inject_Z 2) with 2. ring.
  - reflexivity.
  - intros y y' Y Y' H H' HY.
    rewrite encode_int in H, H'. cbn [map] in H, H'.
    injection H as <-. injection H' as <-.
    apply inject_Z_injective.
    rewrite <- (encoded_label_inverse y), <- (encoded_label_inverse y'), HY.
    reflexivity.
  - intros ys Ys H HE. rewrite encode_int in HE. injection HE as <-.
    split; [apply length_map | apply Hrange, H].
Qed.

Lemma split_cell_raises_NameError_witness :
  VQC.cell_split Toy.train_test_split Toy.train = inl (NameError "np").
Proof.
  refine (proj2 (proj1 (proj2 split_cell_raises_NameError)
                       Toy.train_test_split Toy.train Toy.X _ _
                       (pd.IntCol (Toy.repeat_rows 10 [0; 1; 1; 0]%Z)) _ _
                       _ _ _)).
  - vm_compute. reflexivity.
  - vm_compute. reflexivity.
  - reflexivity.
Defined.

(** ** Loops of a cell *)

(** An invariant indexed by the number of iterations done: if every
    iteration takes [I k] to [I (k+1)], or stops in [E], so does the
    loop. *)
Lemma for_invariant {S A : Type} (I : nat -> S -> Prop) (E : S -> Prop)
      (l : list A) (body : A -> M S unit) :
  (forall k a s, nth_error l k = Some a -> I k s ->
                 match body a s with
                 | (inr _, s') => I (Datatypes.S k) s'
                 | (inl _, s') => E s'
                 end) ->
  forall s, I 0%nat s ->
            match for_ l body s with
            | (inr _, s') => I (List.length l) s'
            | (inl _, s') => E s'
            end.
Proof.
  revert I. induction l as [|a l IH]; intros I Hbody s H0.
  - exact H0.
  - cbn [for_ bind Monad_M].
    pose proof (Hbody 0%nat a s eq_refl H0) as H1.
    destruct (body a s) as [[e|[]] s1]; [exact H1|].
    apply (IH (fun k => I (Datatypes.S k))); [|exact H1].
    intros k b s2 Hk. apply (Hbody (Datatypes.S k) b s2 Hk).
Qed.

Lemma steps_app (out out' : list event) :
  steps (out ++ out') = (steps out + steps out')%nat.
Proof. unfold steps. rewrite filter_app, length_app. reflexivity. Qed.

Ltac count_steps :=
  unfold steps; cbn; rewrite ?filter_app, ?length_app; cbn; lia.

Lemma ising_body_steps (measure : Simulator) sgd_step (i : nat) (s : Ising.kernel) :
  steps (Ising.out (snd (Ising.loop_body measure sgd_step i s)))
  = Datatypes.S (steps (Ising.out s)).
Proof.
  unfold Ising.loop_body, Ising.opt_step, Ising.closure.
  cbn [bind Monad_M modify get eval ret fst snd].
  cbn [Ising.emit Ising.set_params Ising.p1 Ising.p2 Ising.cost_init
       Ising.var_pt Ising.cost_pt Ising.x Ising.out].
  destruct (sgd_step _ _ _) as [e|[a b]]; [count_steps|].
  destruct ((i + 1) mod 5 =? 0)%nat; [|count_steps].
  cbn [bind Monad_M modify get eval ret fst snd Ising.emit Ising.set_params
       Ising.set_x Ising.set_var_pt Ising.set_cost_pt
       Ising.p1 Ising.p2 Ising.cost_init Ising.var_pt Ising.cost_pt
       Ising.x Ising.out].
  destruct (Ising.cost measure a b); count_steps.
Qed.

(** A loop whose every iteration calls the optimiser once calls it once
    per element of the list it runs over, if it completes, and no more
    than that if an iteration raises. *)
Lemma loop_steps {S : Type} (log : S -> list event)
      (body : nat -> M S unit) (l : list nat) (s : S) :
  (forall a s0,
      (steps (log (snd (body a s0))) <= Datatypes.S (steps (log s0)))%nat /\
      (forall u, fst (body a s0) = inr u ->
                 steps (log (snd (body a s0))) = Datatypes.S (steps (log s0)))) ->
  (steps (log (snd (for_ l body s))) <= steps (log s) + List.length l)%nat /\
  (forall u, fst (for_ l body s) = inr u ->
             steps (log (snd (for_ l body s))) = (steps (log s) + List.length l)%nat).
Proof.
  intros Hstep.
  pose proof (for_invariant
                (fun k s' => steps (log s') = (steps (log s) + k)%nat)
                (fun s' => (steps (log s') <= steps (log s) + List.length l)%nat)
                l body) as H.
  cbv beta in H.
  assert (Hbody : forall k a s0,
             nth_error l k = Some a ->
             steps (log s0) = (steps (log s) + k)%nat ->
             match body a s0 with
             | (inr _, s') => steps (log s') = (steps (log s) + Datatypes.S k)%nat
             | (inl _, s') => (steps (log s') <= steps (log s) + List.length l)%nat
             end).
  { intros k a s0 Hk Hs0.
    destruct (Hstep a s0) as [Hle Heq].
    assert (k < List.length l)%nat by (apply nth_error_Some; congruence).
    destruct (body a s0) as [[e|u] s1]; cbn [fst snd] in Hle, Heq.
    - lia.
    - rewrite (Heq u eq_refl). lia. }
  specialize (H Hbody s (eq_sym (Nat.add_0_r _))).
  destruct (for_ l body s) as [[e|u] s']; cbn [fst snd].
  - split; [exact H | discriminate].
  - split; [lia | intros; exact H].
Qed.

Lemma vqc_body_steps (measure : Simulator) {G O : Type} randint adam_step
      (X : list (list scalar)) (Y : list Q) (batch it : nat) (s : VQC.kernel G O) :
  let run := VQC.loop_body measure randint adam_step X Y batch it s in
  (steps (VQC.out (snd run)) <= Datatypes.S (steps (VQC.out s)))%nat /\
  (forall u, fst run = inr u ->
             steps (VQC.out (snd run)) = Datatypes.S (steps (VQC.out s))).
Proof.
  unfold VQC.loop_body, VQC.opt_step.
  cbn -[VQC.predict VQC.accuracy VQC.cost np.take steps].
  destruct (randint _ _ _ _) as [[e|index] g];
    [split; [count_steps | discriminate]|].
  destruct (np.take X index) as [e|X_batch];
    [split; [count_steps | discriminate]|].
  destruct (np.take Y index) as [e|Y_batch];
    [split; [count_steps | discriminate]|].
  cbn -[VQC.predict VQC.accuracy VQC.cost np.take steps].
  destruct (adam_step _ _ _ _ _ _) as [e|[[w b] o]];
    [split; [count_steps | discriminate]|].
  cbn -[VQC.predict VQC.accuracy VQC.cost np.take steps].
  destruct (VQC.predict measure w b X) as [e|predictions];
    [split; [count_steps | discriminate]|].
  destruct (VQC.accuracy Y predictions) as [e|acc];
    [split; [count_steps | discriminate]|].
  destruct (VQC.cost measure w b X Y) as [e|c];
    [split; [count_steps | discriminate]|].
  split; [count_steps | intros u _; count_steps].
Qed.

(** C3. Both optimisation loops run a fixed number of iterations: the
    SGD loop of the Ising notebook calls the optimiser's step exactly 100
    times, the Adam loop of the VQC notebook exactly n_it = 35 times,
    whatever the simulator and the optimiser compute (so whatever cost
    is reached); a run cut short by an exception makes fewer calls,
    never more. *)
Theorem optimisation_loops_run_fixed_iterations :
  (forall (measure : Simulator) sgd_step (s : Ising.kernel),
      let run := Ising.cell_optimise measure sgd_step s in
      (steps (Ising.out (snd run)) <= steps (Ising.out s) + 100)%nat /\
      (forall u, fst run = inr u ->
                 steps (Ising.out (snd run)) = (steps (Ising.out s) + 100)%nat)) /\
  VQC.n_it = 35%nat /\
  (forall (measure : Simulator) (G O : Type) randint adam_step
          (weights_init : np.tensor) (bias_init : Q)
          (X_train : list (list scalar)) (Y_train : list Q) (batch : nat)
          (s : VQC.kernel G O),
      let run := VQC.cell_train measure randint adam_step
                                weights_init bias_init X_train Y_train batch s in
      (steps (VQC.out (snd run)) <= steps (VQC.out s) + 35)%nat /\
      (forall u, fst run = inr u ->
                 steps (VQC.out (snd run)) = (steps (VQC.out s) + 35)%nat)).
Proof.
  split; [|split; [reflexivity|]].
  - intros measure sgd_step s.
    unfold Ising.cell_optimise.
    cbn [bind Monad_M modify get eval ret fst snd].
    match goal with
    | |- context [for_ ?l ?body ?s0] =>
        pose proof (loop_steps Ising.out body l s0) as H
    end.
    cbv zeta. apply H.
    intros a s0. rewrite ising_body_steps. split; [lia | reflexivity].
  - intros measure G O randint adam_step w0 b0 X Y batch s.
    unfold VQC.cell_train, VQC.cell_train_for.
    cbn [bind Monad_M modify get eval ret fst snd].
    match goal with
    | |- context [for_ ?l ?body ?s0] =>
        pose proof (loop_steps VQC.out body l s0) as H
    end.
    cbv zeta. apply H.
    intros a s0. apply vqc_body_steps.
Qed.

Lemma optimisation_loops_run_fixed_iterations_witness :
  steps (Ising.out (snd (Ising.cell_optimise Toy.measure Toy.sgd_step Toy.ising_ready)))
  = (steps (Ising.out Toy.ising_ready) + 100)%nat.
Proof.
  apply (proj2 (proj1 optimisation_loops_run_fixed_iterations
                      Toy.measure Toy.sgd_step Toy.ising_ready) tt).
  vm_compute. reflexivity.
Defined.

(** ** The shape of the weights *)

Lemma fill_Forall {G A : Type} (P : A -> Prop) (draw : G -> A * G) (n : nat) (g : G) :
  (forall g0, P (fst (draw g0))) -> Forall P (fst (np.fill n draw g)).
Proof.
  intros HP. revert g. induction n as [|n IH]; intros g; cbn [np.fill].
  - constructor.
  - specialize (HP g). destruct (draw g) as [v g1]. cbn [fst] in HP.
    specialize (IH g1). destruct (np.fill n draw g1) as [vs g2].
    cbn [fst] in *. constructor; assumption.
Qed.

Lemma fill_length {G A : Type} (draw : G -> A * G) (n : nat) (g : G) :
  List.length (fst (np.fill n draw g)) = n.
Proof.
  revert g. induction n as [|n IH]; intros g; cbn [np.fill].
  - reflexivity.
  - destruct (draw g) as [v g1].
    specialize (IH g1). destruct (np.fill n draw g1) as [vs g2].
    cbn [fst List.length] in *. congruence.
Qed.

Lemma randn_shape {G : Type} (standard_normal : G -> Q * G) (d0 d1 d2 : nat) (g : G) :
  np.has_shape d0 d1 d2 (fst (np.randn standard_normal d0 d1 d2 g)).
Proof.
  unfold np.has_shape, np.randn. split.
  - apply fill_length.
  - apply fill_Forall. intros g0. split.
    + apply fill_length.
    + apply fill_Forall. intros g1. apply fill_length.
Qed.

Lemma scale_shape (c : Q) (d0 d1 d2 : nat) (a : np.tensor) :
  np.has_shape d0 d1 d2 a -> np.has_shape d0 d1 d2 (np.scale c a).
Proof.
  unfold np.has_shape, np.scale. intros [H0 H]. split.
  - rewrite length_map. exact H0.
  - rewrite Forall_map. eapply Forall_impl; [|exact H].
    cbv beta. intros m [H1 H2]. split.
    + rewrite length_map. exact H1.
    + rewrite Forall_map. eapply Forall_impl; [|exact H2].
      cbv beta. intros r Hr. rewrite length_map. exact Hr.
Qed.

Lemma has_shapeb_spec (d0 d1 d2 : nat) (a : np.tensor) :
  np.has_shapeb d0 d1 d2 a = true <-> np.has_shape d0 d1 d2 a.
Proof.
  unfold np.has_shapeb, np.has_shape.
  rewrite andb_true_iff, Nat.eqb_eq, forallb_forall, Forall_forall.
  split; intros [H0 H]; (split; [exact H0|]); intros m Hm; specialize (H m Hm).
  - rewrite andb_true_iff, Nat.eqb_eq, forallb_forall in H.
    destruct H as [H1 H2]. split; [exact H1|].
    rewrite Forall_forall. intros r Hr. apply Nat.eqb_eq, H2, Hr.
  - destruct H as [H1 H2]. rewrite Forall_forall in H2.
    rewrite andb_true_iff, Nat.eqb_eq, forallb_forall.
    split; [exact H1|]. intros r Hr. apply Nat.eqb_eq, H2, Hr.
Qed.

(** ** Exceptions *)




(** ** The devices *)





(** ** Frames *)

Lemma bind_inr {A B : Type} (m : res A) (f : A -> res B) (b : B) :
  (a <- m ;; f a) = inr b -> exists a, m = inr a /\ f a = inr b.
Proof.
  destruct m as [e|a]; cbn; [discriminate|].
  intros H. exists a. split; [reflexivity | exact H].
Qed.

Lemma getcol_In (df : pd.DataFrame) (k : string) (c : pd.column) :
  pd.getcol df k = inr c -> In (k, c) df.
Proof.
  induction df as [|[k' c'] df IH]; cbn [pd.getcol]; [discriminate|].
  destruct (String.eqb_spec k' k) as [->|Hne].
  - intros H. injection H as ->. left. reflexivity.
  - intros H. right. apply IH, H.
Qed.

Lemma getcol_setcol_same (df : pd.DataFrame) (k : string) (c : pd.column) :
  pd.getcol (pd.setcol df k c) k = inr c.
Proof.
  induction df as [|[k' c'] df IH]; cbn [pd.setcol pd.getcol].
  - rewrite String.eqb_refl. reflexivity.
  - destruct (String.eqb_spec k' k) as [->|Hne]; cbn [pd.getcol].
    + rewrite String.eqb_refl. reflexivity.
    + destruct (String.eqb_spec k' k); [contradiction | exact IH].
Qed.

Lemma getcol_setcol_other (df : pd.DataFrame) (k k' : string) (c : pd.column) :
  k <> k' -> pd.getcol (pd.setcol df k c) k' = pd.getcol df k'.
Proof.
  intros Hne.
  induction df as [|[k0 c0] df IH]; cbn [pd.setcol pd.getcol].
  - destruct (String.eqb_spec k k'); [contradiction | reflexivity].
  - destruct (String.eqb_spec k0 k) as [->|H0]; cbn [pd.getcol].
    + destruct (String.eqb_spec k k'); [contradiction | reflexivity].
    + rewrite IH. reflexivity.
Qed.

Lemma getcol_app_notin (df df' : pd.DataFrame) (k : string) :
  ~ In k (pd.names df) -> pd.getcol (df ++ df') k = pd.getcol df' k.
Proof.
  induction df as [|[k0 c0] df IH]; cbn [app pd.getcol pd.names map fst];
    [reflexivity|].
  intros Hnot.
  destruct (String.eqb_spec k0 k) as [->|H0].
  - exfalso. apply Hnot. left. reflexivity.
  - apply IH. intros Hin. apply Hnot. right. exact Hin.
Qed.

Lemma names_setcol (df : pd.DataFrame) (k0 k : string) (c : pd.column) :
  In k (pd.names (pd.setcol df k0 c)) -> k = k0 \/ In k (pd.names df).
Proof.
  induction df as [|[k1 c1] df IH]; cbn [pd.setcol pd.names map fst In].
  - intros [<-|[]]. left. reflexivity.
  - destruct (String.eqb_spec k1 k0) as [->|H1]; cbn [map fst In].
    + intros [<-|H]; [left; reflexivity | right; right; exact H].
    + intros [<-|H]; [right; left; reflexivity|].
      destruct (IH H) as [->|H']; [left; reflexivity | right; right; exact H'].
Qed.

Lemma rectangular_setcol (n : nat) (df : pd.DataFrame) (k : string) (c : pd.column) :
  rectangular n df -> pd.size c = n -> rectangular n (pd.setcol df k c).
Proof.
  unfold rectangular. intros Hdf Hc.
  induction Hdf as [|[k1 c1] df H1 Hdf IH]; cbn [pd.setcol].
  - constructor; [exact Hc | constructor].
  - destruct (String.eqb k1 k); constructor; assumption.
Qed.

Lemma select_found (df : pd.DataFrame) (ks : list string) :
  pd.missing df ks = [] ->
  pd.select df ks
  = Py.comprehension (fun k => c <- pd.getcol df k ;; ret (k, c)) ks.
Proof. unfold pd.select. intros ->. reflexivity. Qed.

Lemma select_inr (df : pd.DataFrame) (ks : list string) (sel : pd.DataFrame) :
  pd.select df ks = inr sel ->
  Forall2 (fun k kc => fst kc = k /\ pd.getcol df k = inr (snd kc)) ks sel.
Proof.
  intros Hsel.
  assert (H : Py.comprehension (fun k => c <- pd.getcol df k ;; ret (k, c)) ks
              = inr sel).
  { unfold pd.select in Hsel.
    destruct (pd.missing df ks); [exact Hsel | discriminate]. }
  clear Hsel. revert sel H.
  induction ks as [|k ks IH]; intros sel; cbn [Py.comprehension].
  - intros H. injection H as <-. constructor.
  - intros H.
    apply bind_inr in H. destruct H as [kc [Hkc H]].
    apply bind_inr in Hkc. destruct Hkc as [c [Hc Hkc]].
    apply bind_inr in H. destruct H as [rest [Hrest H]].
    cbn in Hkc, H. injection Hkc as <-. injection H as <-.
    constructor; [split; [reflexivity | exact Hc] | apply IH, Hrest].
Qed.

Lemma size_astype_str (repr : Q -> string) (c : pd.column) :
  pd.size (pd.astype_str repr c) = pd.size c.
Proof. destruct c; unfold pd.size; cbn; rewrite !length_map; reflexivity. Qed.

Lemma size_fillna (c : pd.column) (x : option Q) :
  pd.size (pd.fillna c x) = pd.size c.
Proof.
  destruct c as [v|v|v], x as [q|]; try reflexivity.
  unfold pd.size. cbn. rewrite !length_map. reflexivity.
Qed.

Lemma indicator_binary (cat : string) (v : list (option string)) :
  binary_column (List.length v) (pd.indicator cat v).
Proof.
  unfold pd.indicator. eexists. split; [reflexivity|]. split.
  - apply length_map.
  - rewrite Forall_map. apply Forall_forall. intros [s|] _.
    + destruct (String.eqb s cat); [right | left]; reflexivity.
    + left. reflexivity.
Qed.

Lemma get_dummies_In (df : pd.DataFrame) (k : string) (c : pd.column) :
  In (k, c) (pd.get_dummies df) ->
  In (k, c) df \/
  exists k0 v cat, In (k0, pd.StrCol v) df /\ c = pd.indicator cat v.
Proof.
  unfold pd.get_dummies. rewrite in_app_iff, filter_In, in_flat_map.
  intros [[H _]|[[k0 c0] [Hin H]]]; [left; exact H|].
  cbn [fst snd] in H. destruct c0 as [v|v|v]; try contradiction.
  apply in_map_iff in H. destruct H as [cat [Heq _]].
  injection Heq as _ <-.
  right. exists k0, v, cat. split; [exact Hin | reflexivity].
Qed.

Lemma select_In (df : pd.DataFrame) (ks : list string) (sel : pd.DataFrame)
      (k : string) (c : pd.column) :
  pd.select df ks = inr sel -> In (k, c) sel ->
  In k ks /\ pd.getcol df k = inr c.
Proof.
  intros H. apply select_inr in H.
  induction H as [|k0 [k1 c1] ks sel [Hk Hc] _ IH]; cbn [In]; [contradiction|].
  cbn [fst snd] in Hk, Hc.
  intros [Heq|Hin].
  - injection Heq as <- <-. subst k0. split; [left; reflexivity | exact Hc].
  - destruct (IH Hin) as [H1 H2]. split; [right; exact H1 | exact H2].
Qed.

Lemma rectangular_In (n : nat) (df : pd.DataFrame) (k : string) (c : pd.column) :
  rectangular n df -> In (k, c) df -> pd.size c = n.
Proof.
  unfold rectangular. rewrite Forall_forall. intros H Hin. apply (H (k, c) Hin).
Qed.

Lemma binary_column_size (n : nat) (c : pd.column) :
  binary_column n c -> pd.size c = n.
Proof.
  intros [zs [-> [Hlen _]]]. unfold pd.size. cbn. rewrite length_map. exact Hlen.
Qed.

Lemma size_StrCol (v : list (option string)) : pd.size (pd.StrCol v) = List.length v.
Proof. unfold pd.size. cbn. apply length_map. Qed.

Lemma has_column_In (df : pd.DataFrame) (k : string) :
  has_column df k = true <-> In k (pd.names df).
Proof.
  unfold has_column. rewrite existsb_exists. split.
  - intros [k' [Hin Heq]]. apply String.eqb_eq in Heq. subst. exact Hin.
  - intros Hin. exists k. split; [exact Hin | apply String.eqb_refl].
Qed.

Lemma getcol_missing (df : pd.DataFrame) (k : string) :
  has_column df k = false -> pd.getcol df k = inl (KeyError k).
Proof.
  intros H.
  assert (Hnot : ~ In k (pd.names df))
    by (rewrite <- has_column_In, H; discriminate).
  clear H. induction df as [|[k' c] df IH]; [reflexivity|].
  cbn [pd.getcol]. destruct (String.eqb_spec k' k) as [->|Hne].
  - exfalso. apply Hnot. left. reflexivity.
  - apply IH. intros Hin. apply Hnot. right. exact Hin.
Qed.

Lemma getcol_present (df : pd.DataFrame) (k : string) :
  has_column df k = true -> exists c, pd.getcol df k = inr c.
Proof.
  rewrite has_column_In.
  induction df as [|[k' c] df IH]; cbn [pd.names map fst In pd.getcol];
    [contradiction|].
  intros [->|Hin].
  - rewrite String.eqb_refl. exists c. reflexivity.
  - destruct (String.eqb k' k); [exists c; reflexivity | apply IH, Hin].
Qed.

Lemma getcol_app_in (df df' : pd.DataFrame) (k : string) :
  has_column df k = true -> pd.getcol (df ++ df') k = pd.getcol df k.
Proof.
  rewrite has_column_In.
  induction df as [|[k' c] df IH]; cbn [pd.names map fst In app pd.getcol];
    [contradiction|].
  intros [->|Hin].
  - rewrite String.eqb_refl. reflexivity.
  - destruct (String.eqb k' k); [reflexivity | apply IH, Hin].
Qed.

Lemma has_column_setcol (df : pd.DataFrame) (k0 k : string) (c : pd.column) :
  has_column df k = true -> has_column (pd.setcol df k0 c) k = true.
Proof.
  rewrite !has_column_In.
  induction df as [|[k1 c1] df IH]; cbn [pd.setcol pd.names map fst In];
    [contradiction|].
  destruct (String.eqb_spec k1 k0) as [->|Hne]; cbn [map fst In].
  - intros [->|H]; [left; reflexivity | right; exact H].
  - intros [->|H]; [left; reflexivity | right; apply IH, H].
Qed.

Lemma In_insert_sorted {A : Type} (le : A -> A -> bool) (a b : A) (l : list A) :
  In a (pd.insert_sorted le b l) <-> a = b \/ In a l.
Proof.
  induction l as [|c l IH]; cbn [pd.insert_sorted In].
  - intuition congruence.
  - destruct (le b c); cbn [In]; rewrite ?IH; intuition congruence.
Qed.

Lemma In_sort {A : Type} (le : A -> A -> bool) (a : A) (l : list A) :
  In a (pd.sort le l) <-> In a l.
Proof.
  unfold pd.sort. induction l as [|b l IH]; cbn [fold_right In].
  - reflexivity.
  - rewrite In_insert_sorted, IH. intuition congruence.
Qed.

Lemma In_categories (cat : string) (v : list (option string)) :
  In cat (pd.categories v) <-> In (Some cat) v.
Proof.
  unfold pd.categories, pd.present.
  rewrite In_sort, nodup_In, in_flat_map. split.
  - intros [[s|] [Hin H]]; cbn [In] in H; [|contradiction].
    destruct H as [->|[]]. exact Hin.
  - intros H. exists (Some cat). split; [exact H | left; reflexivity].
Qed.

Lemma names_get_dummies (df : pd.DataFrame) (k : string) :
  In k (pd.names (pd.get_dummies df)) <->
  (exists c, In (k, c) df /\ pd.is_object c = false) \/
  (exists k0 v cat, In (k0, pd.StrCol v) df /\ In cat (pd.categories v) /\
                    k = (k0 ++ "_" ++ cat)%string).
Proof.
  unfold pd.names, pd.get_dummies. rewrite map_app, in_app_iff, !in_map_iff.
  split.
  - intros [[[k' c] [<- H]]|[[k' c] [<- H]]]; cbn [fst].
    + apply filter_In in H. destruct H as [Hin Hc]. cbn [snd] in Hc.
      left. exists c. split; [exact Hin | destruct (pd.is_object c); easy].
    + apply in_flat_map in H. destruct H as [[k0 c0] [Hin H]].
      cbn [fst snd] in H. destruct c0 as [v|v|v]; try contradiction.
      apply in_map_iff in H. destruct H as [cat [Heq Hcat]].
      injection Heq as <- _.
      right. exists k0, v, cat. repeat split; assumption.
  - intros [[c [Hin Hc]]|[k0 [v [cat [Hin [Hcat ->]]]]]].
    + left. exists (k, c). split; [reflexivity|].
      apply filter_In. split; [exact Hin | cbn [snd]; rewrite Hc; reflexivity].
    + right. exists ((k0 ++ "_" ++ cat)%string, pd.indicator cat v).
      split; [reflexivity|].
      apply in_flat_map. exists (k0, pd.StrCol v). split; [exact Hin|].
      cbn [fst snd]. apply in_map_iff. exists cat.
      split; [reflexivity | exact Hcat].
Qed.

Lemma has_column_getcol (df : pd.DataFrame) (k : string) :
  has_column df k = match pd.getcol df k with inr _ => true | inl _ => false end.
Proof.
  destruct (has_column df k) eqn:H.
  - destruct (getcol_present df k H) as [c ->]. reflexivity.
  - rewrite (getcol_missing df k H). reflexivity.
Qed.

Section LoadedFrame.

Variable read_csv : string -> res pd.DataFrame.
Variable repr : Q -> string.
Variables csv train0 : pd.DataFrame.
Variable n : nat.

Hypothesis file_read : read_csv "TitanicData/train.csv"%string = inr csv.
Hypothesis file_rectangular : rectangular n csv.
Hypothesis cell_read_done : VQC.cell_read read_csv repr = inr train0.

(** The frame after the loading cell: the file's columns, [Pclass] as
    strings, followed by the dummy columns. *)
Lemma cell_read_shape :
  exists c sel,
    pd.getcol csv "Pclass" = inr c /\
    pd.select (pd.setcol csv "Pclass" (pd.astype_str repr c))
              ["Pclass"; "Sex"; "Embarked"]%string = inr sel /\
    train0 = pd.setcol csv "Pclass" (pd.astype_str repr c) ++ pd.get_dummies sel.
Proof.
  pose proof cell_read_done as H. unfold VQC.cell_read in H.
  rewrite file_read in H. cbn [bind Monad_res] in H.
  apply bind_inr in H. destruct H as [c [Hc H]].
  apply bind_inr in H. destruct H as [sel [Hsel H]].
  cbn in H. injection H as <-.
  exists c, sel. split; [exact Hc|]. split; [exact Hsel|].
  unfold pd.concat. cbn [List.concat]. rewrite app_nil_r. reflexivity.
Qed.

Lemma dummies_binary (k : string) (c : pd.column) :
  ~ In k (pd.names csv) ->
  ~ In k ["Pclass"; "Sex"; "Embarked"]%string ->
  pd.getcol train0 k = inr c ->
  binary_column n c.
Proof.
  intros Hcsv Hsel Hget.
  destruct cell_read_shape as [c0 [sel [Hc0 [Hs ->]]]].
  assert (Hrect : rectangular n (pd.setcol csv "Pclass" (pd.astype_str repr c0))).
  { apply rectangular_setcol; [exact file_rectangular|].
    rewrite size_astype_str.
    apply (rectangular_In n csv "Pclass" c0 file_rectangular), getcol_In, Hc0. }
  rewrite getcol_app_notin in Hget.
  2:{ intros Hin. apply names_setcol in Hin. destruct Hin as [->|Hin].
      - apply Hsel. left. reflexivity.
      - apply Hcsv, Hin. }
  apply getcol_In, get_dummies_In in Hget.
  destruct Hget as [Hin|[k0 [v [cat [Hin ->]]]]].
  - exfalso. apply Hsel. apply (select_In _ _ _ _ _ Hs Hin).
  - destruct (select_In _ _ _ _ _ Hs Hin) as [_ Hv].
    apply getcol_In in Hv.
    pose proof (rectangular_In n _ _ _ Hrect Hv) as Hsize.
    rewrite size_StrCol in Hsize. rewrite <- Hsize.
    apply indicator_binary.
Qed.

Lemma cell_read_rectangular : rectangular n train0.
Proof.
  destruct cell_read_shape as [c0 [sel [Hc0 [Hs ->]]]].
  assert (Hrect : rectangular n (pd.setcol csv "Pclass" (pd.astype_str repr c0))).
  { apply rectangular_setcol; [exact file_rectangular|].
    rewrite size_astype_str.
    apply (rectangular_In n csv "Pclass" c0 file_rectangular), getcol_In, Hc0. }
  unfold rectangular. apply Forall_app. split; [exact Hrect|].
  apply Forall_forall. intros [k c] Hin. cbn [snd].
  apply get_dummies_In in Hin.
  destruct Hin as [Hin|[k0 [v [cat [Hin ->]]]]].
  - destruct (select_In _ _ _ _ _ Hs Hin) as [_ Hv].
    apply getcol_In in Hv. apply (rectangular_In n _ _ _ Hrect Hv).
  - destruct (select_In _ _ _ _ _ Hs Hin) as [_ Hv].
    apply getcol_In in Hv.
    pose proof (rectangular_In n _ _ _ Hrect Hv) as Hsize.
    rewrite size_StrCol in Hsize. rewrite <- Hsize.
    apply binary_column_size, indicator_binary.
Qed.

End LoadedFrame.

Lemma comprehension_Forall2 {A B : Type} (f : A -> res B) (l : list A) (r : list B) :
  Py.comprehension f l = inr r -> Forall2 (fun a b => f a = inr b) l r.
Proof.
  revert r. induction l as [|a l IH]; intros r; cbn [Py.comprehension].
  - intros H. injection H as <-. constructor.
  - intros H.
    apply bind_inr in H. destruct H as [b [Hb H]].
    apply bind_inr in H. destruct H as [bs [Hbs H]].
    cbn in H. injection H as <-.
    constructor; [exact Hb | apply IH, Hbs].
Qed.

Lemma Forall2_at {A B : Type} (R : A -> B -> Prop) (l : list A) (l' : list B)
      (i : nat) (d : A) (d' : B) :
  Forall2 R l l' -> (i < List.length l)%nat -> R (nth i l d) (nth i l' d').
Proof.
  intros H. revert i. induction H as [|a b l l' Hab _ IH]; intros i Hi.
  - cbn in Hi. lia.
  - destruct i as [|i]; cbn [nth]; [exact Hab|].
    apply IH. cbn in Hi. lia.
Qed.

Lemma is_child_lambda_spec (a : scalar) (z : Z) :
  VQC.is_child_lambda a = inr z ->
  (z = 0 \/ z = 1)%Z /\ (z = 1%Z <-> under_12 a).
Proof.
  destruct a as [z0|q|s|]; cbn [VQC.is_child_lambda under_12]; intros H;
    try discriminate; injection H as <-.
  - destruct (Z.ltb_spec z0 12); (split; [lia|]); split; (lia || discriminate || reflexivity).
  - destruct (Qlt_le_dec q 12) as [Hlt|Hle].
    + split; [right; reflexivity|]. split; [intros _; exact Hlt | reflexivity].
    + split; [left; reflexivity|].
      split; [discriminate|]. intros Hlt. exfalso. apply (Qle_not_lt _ _ Hle Hlt).
  - split; [left; reflexivity|]. split; [discriminate | contradiction].
Qed.

Lemma int_cell_nth (zs : list Z) (i : nat) :
  (i < List.length zs)%nat -> nth i (map Int zs) NaN = Int (nth i zs 0%Z).
Proof.
  intros Hi. rewrite (nth_indep (map Int zs) NaN (Int 0%Z)).
  - apply map_nth.
  - rewrite length_map. exact Hi.
Qed.

Lemma cell_age_shape (train0 train : pd.DataFrame) (n : nat) :
  rectangular n train0 ->
  VQC.cell_age train0 = inr train ->
  exists age0 m zs,
    pd.getcol train0 "Age" = inr age0 /\
    pd.median age0 = inr m /\
    pd.getcol train "Age" = inr (pd.fillna age0 m) /\
    pd.getcol train "is_child" = inr (pd.IntCol zs) /\
    Forall2 (fun a z => VQC.is_child_lambda a = inr z)
            (pd.cells (pd.fillna age0 m)) zs /\
    pd.size (pd.fillna age0 m) = n /\
    (forall k, k <> "Age"%string -> k <> "is_child"%string ->
               pd.getcol train k = pd.getcol train0 k).
Proof.
  intros Hrect H. unfold VQC.cell_age in H.
  apply bind_inr in H. destruct H as [age0 [Hage0 H]].
  rewrite Hage0 in H. cbn [bind Monad_res] in H.
  apply bind_inr in H. destruct H as [m [Hm H]].
  rewrite getcol_setcol_same in H. cbn [bind Monad_res] in H.
  apply bind_inr in H. destruct H as [child [Hchild H]].
  cbn in H. injection H as <-.
  unfold pd.map_int in Hchild.
  apply bind_inr in Hchild. destruct Hchild as [zs [Hzs Hchild]].
  cbn in Hchild. injection Hchild as <-.
  exists age0, m, zs.
  split; [exact Hage0|]. split; [exact Hm|].
  split; [|split; [|split; [|split]]].
  - rewrite getcol_setcol_other by discriminate. apply getcol_setcol_same.
  - apply getcol_setcol_same.
  - apply comprehension_Forall2, Hzs.
  - rewrite size_fillna.
    apply (rectangular_In n train0 "Age" age0 Hrect), getcol_In, Hage0.
  - intros k HA HC.
    rewrite !getcol_setcol_other by congruence. reflexivity.
Qed.

(** The loading cell leaves the file's Age column as it is. *)
Lemma cell_read_keeps_age (read_csv : string -> res pd.DataFrame)
      (repr : Q -> string) (csv train0 : pd.DataFrame) (age0 : pd.column) :
  read_csv "TitanicData/train.csv"%string = inr csv ->
  VQC.cell_read read_csv repr = inr train0 ->
  pd.getcol train0 "Age" = inr age0 ->
  pd.getcol csv "Age" = inr age0.
Proof.
  intros Hfile Hread Hage.
  destruct (cell_read_shape read_csv repr csv train0 Hfile Hread)
    as [c [sel [_ [Hsel ->]]]].
  destruct (has_column csv "Age") eqn:HA.
  - rewrite getcol_app_in in Hage by (apply has_column_setcol, HA).
    rewrite getcol_setcol_other in Hage by discriminate. exact Hage.
  - exfalso.
    rewrite getcol_app_notin in Hage.
    2:{ intros Hin. apply names_setcol in Hin. destruct Hin as [Heq|Hin];
          [discriminate Heq|].
        apply has_column_In in Hin. congruence. }
    apply getcol_In in Hage.
    assert (Hname : In "Age"%string (pd.names (pd.get_dummies sel)))
      by (apply in_map_iff; exists ("Age"%string, age0); split; [reflexivity | exact Hage]).
    apply select_inr in Hsel.
    repeat match goal with
           | H : Forall2 _ (_ :: _) _ |- _ => inversion H; clear H; subst
           | H : Forall2 _ [] _ |- _ => inversion H; clear H; subst
           end.
    repeat match goal with
           | H : fst ?kc = _ /\ _ |- _ =>
               let k := fresh "k" in
               let col := fresh "col" in
               let E := fresh "E" in
               let Hg := fresh "Hg" in
               destruct kc as [k col]; cbn [fst snd] in H; destruct H as [E Hg]; subst k
           end.
    apply names_get_dummies in Hname.
    destruct Hname as [[col' [Hin _]]|[k0 [v [cat [Hin [_ Heq]]]]]];
      cbn [In] in Hin; destruct Hin as [Hin|[Hin|[Hin|[]]]];
      try (apply (f_equal fst) in Hin; cbn [fst] in Hin; discriminate Hin);
      apply (f_equal fst) in Hin; cbn [fst] in Hin; subst k0;
      cbn in Heq; discriminate Heq.
Qed.

Lemma boolean_is_bit (v : scalar) : boolean v -> is_bit v = true.
Proof. intros [-> | ->]; reflexivity. Qed.

Lemma boolean_vector_embedded (x : list scalar) :
  boolean_vector x -> embedded x.
Proof.
  intros Hx. split; [exact Hx|].
  unfold record. rewrite dataEmbedding_outcome.
  destruct Hx as [Hlen Hall].
  unfold basis_state. change VQC.n_qubits with 4%nat.
  rewrite Hlen. cbn [Nat.eqb andb].
  replace (forallb is_bit x) with true; [reflexivity|].
  symmetry. apply forallb_forall. intros v Hv.
  rewrite Forall_forall in Hall. apply boolean_is_bit, Hall, Hv.
Qed.

Lemma take_In {A : Type} (a : list A) (index : list nat) (r : list A) :
  np.take a index = inr r -> incl r a.
Proof.
  unfold np.take. revert r.
  induction index as [|i index IH]; intros r; cbn [Py.comprehension].
  - intros H. injection H as <-. intros x [].
  - intros H. apply bind_inr in H. destruct H as [b [Hb H]].
    apply bind_inr in H. destruct H as [bs [Hbs H]].
    cbn in H. injection H as <-.
    intros x [<-|Hx].
    + unfold Py.getitem in Hb.
      destruct (nth_error a i) as [a0|] eqn:E; [|discriminate].
      injection Hb as <-. apply (nth_error_In _ _ E).
    + apply (IH bs Hbs), Hx.
Qed.

Lemma binary_entry (zs : list Z) (i : nat) :
  Forall (fun z => z = 0 \/ z = 1)%Z zs -> (i < List.length zs)%nat ->
  boolean (nth i (map Int zs) NaN).
Proof.
  intros H Hi. rewrite (int_cell_nth zs i Hi).
  rewrite Forall_forall in H.
  destruct (H (nth i zs 0%Z) (nth_In zs 0%Z Hi)) as [-> | ->];
    [left | right]; reflexivity.
Qed.

Lemma nth_map_seq {A : Type} (f : nat -> A) (n i : nat) (d : A) :
  (i < n)%nat -> nth i (map f (seq 0 n)) d = f i.
Proof.
  intros Hi. rewrite (nth_indep _ d (f 0%nat)) by (rewrite length_map, length_seq; exact Hi).
  rewrite map_nth, seq_nth by exact Hi. reflexivity.
Qed.

(** C5. The classifier is fed four boolean features. The model variables
    are is_child, Pclass_1, Pclass_2, Sex_female; for a data file whose
    columns all have n entries and which has no column named after a
    dummy variable, once the loading and age cells have run, the n rows
    of the selected columns are vectors of length 4 with entries 0 or 1.
    The Age column then holds the ages of the file, the missing ones
    replaced by the file's median age, and is_child is 1 exactly in the
    rows where that filled-in age is strictly less than 12, and 0 in the
    others. The split cell binds X_train and X_test to what the splitter
    returns; the splitter returning rows of its input, every vector the
    later cells hand to the classifier, and so to dataEmbedding (the
    rows of X_train, of a batch taken from X_train, and of X_test), is a
    boolean vector of length 4, which the embedding queues on wires 0
    to 3. *)
Theorem features_are_boolean_vectors :
  VQC.model_vars = ["is_child"; "Pclass_1"; "Pclass_2"; "Sex_female"]%string /\
  forall (read_csv : string -> res pd.DataFrame) (repr : Q -> string)
         (csv train0 train X : pd.DataFrame) (n : nat),
    read_csv "TitanicData/train.csv"%string = inr csv ->
    rectangular n csv ->
    (forall k, In k ["Pclass_1"; "Pclass_2"; "Sex_female"]%string ->
               ~ In k (pd.names csv)) ->
    VQC.cell_read read_csv repr = inr train0 ->
    VQC.cell_age train0 = inr train ->
    pd.select train VQC.model_vars = inr X ->
    List.length (pd.values X) = n /\
    Forall boolean_vector (pd.values X) /\
    (exists age0 m,
        pd.getcol csv "Age" = inr age0 /\
        pd.median age0 = inr m /\
        pd.getcol train "Age" = inr (pd.fillna age0 m) /\
        forall i, (i < n)%nat ->
          let filled := nth i (pd.cells (pd.fillna age0 m)) NaN in
          let is_child := nth 0 (nth i (pd.values X) []) NaN in
          (is_child = Int 1 <-> under_12 filled) /\
          (is_child = Int 0 <-> ~ under_12 filled)) /\
    (forall (train_test_split :
               pd.DataFrame -> pd.column -> pd.column ->
               res (pd.DataFrame * pd.DataFrame * pd.column * pd.column))
            (X_train X_test : pd.DataFrame) (y y_train y_test : pd.column),
        pd.getcol train "Survived" = inr y ->
        train_test_split X y y = inr (X_train, X_test, y_train, y_test) ->
        incl (pd.values X_train) (pd.values X) ->
        incl (pd.values X_test) (pd.values X) ->
        VQC.cell_split_data train_test_split train
        = inr (pd.values X_train, X_test, y_train, y_test) /\
        Forall embedded (pd.values X_train) /\
        Forall embedded (pd.values X_test) /\
        (forall (batch_index : list nat) (X_batch : list (list scalar)),
            np.take (pd.values X_train) batch_index = inr X_batch ->
            Forall embedded X_batch)).
Proof.
  split; [reflexivity|].
  intros read_csv repr csv train0 train X n Hfile Hrect Hfresh Hread Hage HX.
  pose proof HX as HXsel.
  apply select_inr in HX. unfold VQC.model_vars in HX.
  repeat match goal with
         | H : Forall2 _ (_ :: _) _ |- _ => inversion H; clear H; subst
         | H : Forall2 _ [] _ |- _ => inversion H; clear H; subst
         end.
  repeat match goal with
         | H : fst ?kc = _ /\ _ |- _ =>
             let k := fresh "k" in
             let c := fresh "c" in
             let E := fresh "E" in
             let Hg := fresh "Hg" in
             destruct kc as [k c]; cbn [fst snd] in H; destruct H as [E Hg]; subst k
         end.
  pose proof (cell_read_rectangular read_csv repr csv train0 n Hfile Hrect Hread)
    as Hrect0.
  destruct (cell_age_shape train0 train n Hrect0 Hage)
    as [age0 [m [zs [Hage0 [Hm [HgA [HgC [Hz [Hsize Hother]]]]]]]]].
  pose proof (cell_read_keeps_age read_csv repr csv train0 age0 Hfile Hread Hage0)
    as Hfile_age.
  set (age := pd.fillna age0 m) in *.
  assert (Hzs : List.length zs = n).
  { rewrite <- (Forall2_length Hz). exact Hsize. }
  assert (Hdummy : forall key col,
             In key ["Pclass_1"; "Pclass_2"; "Sex_female"]%string ->
             pd.getcol train key = inr col -> binary_column n col).
  { intros key col Hk Hget.
    rewrite Hother in Hget
      by (intros ->; cbn in Hk; repeat destruct Hk as [Hk|Hk]; discriminate || contradiction).
    apply (dummies_binary read_csv repr csv train0 n Hfile Hrect Hread key col);
      [apply Hfresh, Hk | | exact Hget].
    intros Hin. cbn in Hk, Hin.
    repeat destruct Hk as [Hk|Hk]; subst;
      repeat destruct Hin as [Hin|Hin]; discriminate || contradiction. }
  match goal with
  | H : pd.getcol train "is_child" = inr ?c |- _ =>
      is_var c; rewrite HgC in H; injection H as <-
  end.
  match goal with
  | H : pd.getcol train "Pclass_1" = inr ?c |- _ =>
      destruct (Hdummy "Pclass_1"%string c (or_introl eq_refl) H)
      as [z1 [-> [L1 B1]]]
  end.
  match goal with
  | H : pd.getcol train "Pclass_2" = inr ?c |- _ =>
      destruct (Hdummy "Pclass_2"%string c (or_intror (or_introl eq_refl)) H)
      as [z2 [-> [L2 B2]]]
  end.
  match goal with
  | H : pd.getcol train "Sex_female" = inr ?c |- _ =>
      destruct (Hdummy "Sex_female"%string c
                       (or_intror (or_intror (or_introl eq_refl))) H)
      as [z3 [-> [L3 B3]]]
  end.
  assert (Bz : Forall (fun z => z = 0 \/ z = 1)%Z zs).
  { apply Forall_forall. intros z Hin.
    destruct (In_nth zs z 0%Z Hin) as [i [Hi <-]].
    assert (Hi' : (i < List.length (pd.cells age))%nat)
      by (rewrite (Forall2_length Hz); exact Hi).
    apply (is_child_lambda_spec (nth i (pd.cells age) NaN)).
    apply (Forall2_at _ _ _ i NaN 0%Z Hz Hi'). }
  set (X := [("is_child"%string, pd.IntCol zs);
             ("Pclass_1"%string, pd.IntCol z1);
             ("Pclass_2"%string, pd.IntCol z2);
             ("Sex_female"%string, pd.IntCol z3)]) in *.
  assert (Hvals :
            pd.values X
            = map (fun i => [nth i (map Int zs) NaN; nth i (map Int z1) NaN;
                             nth i (map Int z2) NaN; nth i (map Int z3) NaN])
                  (seq 0 n)).
  { unfold X, pd.values, pd.nrows, pd.size, Py.range. cbn [pd.cells snd map].
    rewrite length_map, Hzs. reflexivity. }
  assert (Hrows : Forall boolean_vector (pd.values X)).
  { rewrite Hvals. apply Forall_forall. intros x Hx.
    apply in_map_iff in Hx. destruct Hx as [i [<- Hi]].
    apply in_seq in Hi.
    split; [reflexivity|].
    repeat (apply Forall_cons; [apply binary_entry; (assumption || lia)|]).
    apply Forall_nil. }
  assert (Hemb : forall Xs, incl Xs (pd.values X) -> Forall embedded Xs).
  { intros Xs Hincl. apply Forall_forall. intros x Hx.
    apply boolean_vector_embedded.
    rewrite Forall_forall in Hrows. apply Hrows, Hincl, Hx. }
  split; [rewrite Hvals, length_map, length_seq; reflexivity|].
  split; [exact Hrows|]. split.
  - exists age0, m. split; [exact Hfile_age|]. split; [exact Hm|].
    split; [exact HgA|].
    intros i Hi. cbv zeta. fold age.
    rewrite Hvals, (nth_map_seq _ n i [] Hi). cbn [nth].
    rewrite int_cell_nth by lia.
    assert (Hi' : (i < List.length (pd.cells age))%nat)
      by (rewrite (Forall2_length Hz); lia).
    pose proof (Forall2_at _ _ _ i NaN 0%Z Hz Hi') as Hl. cbv beta in Hl.
    apply is_child_lambda_spec in Hl. destruct Hl as [H01 H1].
    split; split.
    + intros E. injection E as E. apply H1, E.
    + intros U. f_equal. apply H1, U.
    + intros E U. injection E as E. apply H1 in U. lia.
    + intros NU. f_equal. destruct H01 as [H0|H1']; [exact H0|].
      exfalso. apply NU, H1, H1'.
  - intros tts X_train X_test y y_train y_test Hy Hsplit Htrain Htest.
    split.
    { unfold VQC.cell_split_data. rewrite HXsel. cbn [bind Monad_res].
      rewrite Hy. cbn [bind Monad_res]. rewrite Hsplit. reflexivity. }
    split; [apply Hemb, Htrain|]. split; [apply Hemb, Htest|].
    intros batch_index X_batch Htake. apply Hemb.
    intros x Hx. apply Htrain. apply (take_In _ _ _ Htake), Hx.
Qed.

Lemma features_are_boolean_vectors_witness :
  List.length (pd.values Toy.X) = 40%nat /\
  Forall embedded (pd.values Toy.X_train) /\
  Forall embedded (pd.values Toy.X_test).
Proof.
  unshelve epose proof (proj2 features_are_boolean_vectors
                          Toy.read_csv Toy.repr Toy.csv Toy.train0 Toy.train Toy.X
                          40%nat _ _ _ _ _ _) as H.
  - reflexivity.
  - unfold rectangular, Toy.csv. repeat (apply Forall_cons; [reflexivity|]).
    apply Forall_nil.
  - intros k Hk Hin. cbn in Hk, Hin.
    repeat destruct Hk as [Hk|Hk]; subst;
      repeat destruct Hin as [Hin|Hin]; discriminate || contradiction.
  - vm_compute. reflexivity.
  - vm_compute. reflexivity.
  - vm_compute. reflexivity.
  - destruct H as [Hlen [_ [_ Hsplit]]].
    split; [exact Hlen|].
    unshelve epose proof (Hsplit Toy.train_test_split Toy.X_train Toy.X_test
                            (pd.IntCol (Toy.repeat_rows 10 [0; 1; 1; 0]%Z))
                            _ _ _ _ _ _) as Hrows.
    + exact (Toy.head_column 36 (pd.IntCol (Toy.repeat_rows 10 [0; 1; 1; 0]%Z))).
    + exact (Toy.tail_column 36 (pd.IntCol (Toy.repeat_rows 10 [0; 1; 1; 0]%Z))).
    + vm_compute. reflexivity.
    + reflexivity.
    + intros x Hx. vm_compute in Hx. vm_compute.
      repeat (destruct Hx as [<-|Hx]; [repeat ((left; reflexivity) || right)|]).
      contradiction.
    + intros x Hx. vm_compute in Hx. vm_compute.
      repeat (destruct Hx as [<-|Hx]; [repeat ((left; reflexivity) || right)|]).
      contradiction.
    + destruct Hrows as [_ [Htrain [Htest _]]]. split; assumption.
Defined.

(** ** Runs on the stand-in libraries *)

Example toy_ising_run :
  fst (Toy.ising_notebook Ising.fresh) = inr tt /\
  steps (Ising.out (snd (Toy.ising_notebook Ising.fresh))) = 100%nat /\
  Ising.x (snd (Toy.ising_notebook Ising.fresh))
  = (0 :: map (fun k => 5 * k + 4) (seq 0 20))%nat.
Proof. vm_compute. repeat split. Qed.

Example toy_vqc_run :
  Toy.vqc_notebook Toy.kernel0 = (inl (NameError "np"), Toy.kernel0).
Proof. vm_compute. reflexivity. Qed.

Example toy_features :
  firstn 4 (pd.values Toy.X)
  = [[Int 0; Int 0; Int 0; Int 0]; [Int 1; Int 1; Int 0; Int 1];
     [Int 1; Int 0; Int 1; Int 1]; [Int 1; Int 1; Int 0; Int 0]].
Proof. vm_compute. reflexivity. Qed.

(** * Further properties *)

(** ** The circuits *)

Lemma circuitBuild_outcome (weights : np.tensor) (x : list scalar) :
  record (VQC.circuitBuild weights x)
  = if basis_state 4 x
    then if forallb slice_okb weights
         then inr (expval (PauliZ 0),
                   BasisEmbeddingOp x [0; 1; 2; 3]%nat
                     :: flat_map layer_gates weights)
         else inl IndexError
    else inl ValueError.
Proof.
  unfold record, VQC.circuitBuild.
  cbn [bind Monad_QFunc]. rewrite dataEmbedding_outcome.
  change VQC.n_qubits with 4%nat.
  destruct (basis_state 4 x); [|reflexivity].
  rewrite layers_outcome. destruct (forallb slice_okb weights); reflexivity.
Qed.

Lemma Forall_layers (P : Operation -> Prop) (weights : np.tensor) :
  (forall W, Forall P (layer_gates W)) -> Forall P (flat_map layer_gates weights).
Proof.
  intros H. induction weights as [|W weights IH]; cbn [flat_map].
  - constructor.
  - apply Forall_app. split; [apply H | exact IH].
Qed.

(** X1. The circuits stay on their device. Whatever the arguments, every
    operation the Ising circuit queues acts on a wire below the 3 wires
    of its device, none acts on wire 0 (the first spin is left up), and
    the measurements read wires 0, 1, 2; every operation circuitBuild
    queues acts on wires below the 4 wires of its device, no CNOT has
    its control as target, and the measurement reads wire 0. *)
Theorem circuits_stay_on_the_device :
  (forall (p1 p2 : list Q) (ms : list Measurement) (tape : list Operation),
      record (Ising.circuit p1 p2) = inr (ms, tape) ->
      Forall (fun o => Forall (fun w => (w < wires Ising.dev)%nat) (op_wires o)) tape /\
      Forall (fun o => ~ In 0%nat (op_wires o)) tape /\
      map measured_wire ms = [0; 1; 2]%nat) /\
  (forall (weights : np.tensor) (x : list scalar) (m : Measurement)
          (tape : list Operation),
      record (VQC.circuitBuild weights x) = inr (m, tape) ->
      Forall (fun o => Forall (fun w => (w < wires VQC.dev)%nat) (op_wires o)) tape /\
      Forall (fun o => match o with CNOTOp c t => c <> t | _ => True end) tape /\
      measured_wire m = 0%nat).
Proof.
  split.
  - intros p1 p2 ms tape H. rewrite circuit_outcome in H.
    destruct (angles_ok p1 && angles_ok p2); [|discriminate].
    injection H as <- <-. cbn.
    split; [|split; [|reflexivity]].
    + repeat (apply Forall_cons || apply Forall_nil); cbn; lia.
    + repeat (apply Forall_cons || apply Forall_nil);
        cbn; intros [E|[]]; discriminate.
  - intros weights x m tape H. rewrite circuitBuild_outcome in H.
    destruct (basis_state 4 x); [|discriminate].
    destruct (forallb slice_okb weights); [|discriminate].
    injection H as <- <-.
    split; [|split; [|reflexivity]].
    + apply Forall_cons.
      * cbn. repeat (apply Forall_cons || apply Forall_nil);
          unfold VQC.n_qubits; lia.
      * apply Forall_layers. intros W. unfold layer_gates. cbn.
        repeat (apply Forall_cons || apply Forall_nil);
          unfold VQC.n_qubits; lia.
    + apply Forall_cons; [exact I|].
      apply Forall_layers. intros W. unfold layer_gates.
      repeat (apply Forall_cons || apply Forall_nil); exact I || discriminate.
Qed.

Lemma circuits_stay_on_the_device_witness :
  Forall (fun o => ~ In 0%nat (op_wires o)) [RotOp 0 2 0 1; RotOp 1 3 5 2].
Proof.
  apply (proj1 circuits_stay_on_the_device [0; 2; 0] [1; 3; 5]
               [expval (PauliZ 0); expval (PauliZ 1); expval (PauliZ 2)]
               [RotOp 0 2 0 1; RotOp 1 3 5 2]).
  reflexivity.
Defined.

Lemma length_layers (weights : np.tensor) :
  List.length (flat_map layer_gates weights) = (8 * List.length weights)%nat /\
  List.length (filter is_rot (flat_map layer_gates weights))
  = (VQC.n_qubits * List.length weights)%nat.
Proof.
  induction weights as [|W weights [IH1 IH2]]; [split; reflexivity|].
  cbn [flat_map]. rewrite filter_app, !length_app, IH1, IH2.
  unfold VQC.n_qubits. cbn [layer_gates List.length filter is_rot]. lia.
Qed.

(** X2. The size of the classifier's circuit. Whatever the values of the
    weights and features, circuitBuild queues the embedding and eight
    gates per weight slice, 1 + 8 * len(weights) operations in all, of
    which n_qubits per slice are rotations (three angles each, so every
    one of the 12 angles read from a slice is used once). *)
Theorem circuitBuild_gate_count :
  forall (weights : np.tensor) (x : list scalar) (m : Measurement)
         (tape : list Operation),
    record (VQC.circuitBuild weights x) = inr (m, tape) ->
    List.length tape = (1 + 8 * List.length weights)%nat /\
    List.length (filter is_rot tape) = (VQC.n_qubits * List.length weights)%nat.
Proof.
  intros weights x m tape H. rewrite circuitBuild_outcome in H.
  destruct (basis_state 4 x); [|discriminate].
  destruct (forallb slice_okb weights); [|discriminate].
  injection H as <- <-.
  destruct (length_layers weights) as [H1 H2].
  cbn [List.length filter is_rot]. rewrite H1, H2. split; lia.
Qed.

Lemma circuitBuild_gate_count_witness :
  List.length
    [BasisEmbeddingOp [Int 1; Int 0; Int 0; Int 1] [0; 1; 2; 3]%nat;
     RotOp 1 2 3 0; RotOp 4 5 6 1; RotOp 7 8 9 2; RotOp 10 11 12 3;
     CNOTOp 0 1; CNOTOp 1 2; CNOTOp 2 3; CNOTOp 3 0] = 9%nat.
Proof.
  apply (circuitBuild_gate_count
           [[[1; 2; 3]; [4; 5; 6]; [7; 8; 9]; [10; 11; 12]]]
           [Int 1; Int 0; Int 0; Int 1] (expval (PauliZ 0))).
  reflexivity.
Defined.

(** X3. Layers compose. The circuit of the weights w1 followed by w2 is
    the circuit of w1 followed by the gates of the layers of w2, and it
    can be built exactly when both can: stacking more layers appends
    their gates and alters nothing before them. *)
Theorem circuitBuild_appends_layers :
  forall (w1 w2 : np.tensor) (x : list scalar),
    record (VQC.circuitBuild (w1 ++ w2) x)
    = match record (VQC.circuitBuild w1 x),
            record (for_each w2 (fun W => VQC.layer W)) with
      | inr (m, tape1), inr (_, tape2) => inr (m, tape1 ++ tape2)
      | inl e, _ => inl e
      | _, inl e => inl e
      end.
Proof.
  intros w1 w2 x. rewrite !circuitBuild_outcome. unfold record.
  rewrite layers_outcome, forallb_app, flat_map_app.
  destruct (basis_state 4 x), (forallb slice_okb w1), (forallb slice_okb w2);
    reflexivity.
Qed.

Lemma read_angles_ok (p : list Q) : angles_ok (read_angles p) = angles_ok p.
Proof. destruct p as [|a [|b [|c p]]]; reflexivity. Qed.

Lemma layer_reads_slice (W : list (list Q)) (tape : list Operation) :
  VQC.layer (read_slice W) tape = VQC.layer W tape.
Proof.
  destruct W as [|[|a0 [|b0 [|c0 r0]]] W]; try reflexivity;
    destruct W as [|[|a1 [|b1 [|c1 r1]]] W]; try reflexivity;
    destruct W as [|[|a2 [|b2 [|c2 r2]]] W]; try reflexivity;
    destruct W as [|[|a3 [|b3 [|c3 r3]]] W]; reflexivity.
Qed.

(** X4. What the circuits read of their arguments. The Ising circuit
    reads the first three entries of each parameter vector, a layer the
    first three entries of the first n_qubits rows of its slice; further
    entries and rows are ignored, so the circuits, and their failures,
    are those of the truncated arguments. *)
Theorem circuits_read_a_prefix_of_their_arguments :
  (forall p1 p2 : list Q,
      record (Ising.circuit (read_angles p1) (read_angles p2))
      = record (Ising.circuit p1 p2)) /\
  (forall W : list (list Q),
      record (VQC.layer (read_slice W)) = record (VQC.layer W)) /\
  (forall (weights : np.tensor) (x : list scalar),
      record (VQC.circuitBuild (map read_slice weights) x)
      = record (VQC.circuitBuild weights x)).
Proof.
  split; [|split].
  - intros p1 p2.
    destruct p1 as [|a0 [|a1 [|a2 p1]]]; try reflexivity;
      destruct p2 as [|b0 [|b1 [|b2 p2]]]; reflexivity.
  - intros W. apply layer_reads_slice.
  - intros weights x. unfold record, VQC.circuitBuild.
    cbn [bind Monad_QFunc].
    destruct (VQC.dataEmbedding x []) as [e|[u tape]]; [reflexivity|].
    assert (H : for_each (map read_slice weights) (fun W => VQC.layer W) tape
                = for_each weights (fun W => VQC.layer W) tape).
    { revert tape. induction weights as [|W weights IH]; intros tape; [reflexivity|].
      cbn [map for_each bind Monad_QFunc]. rewrite layer_reads_slice.
      destruct (VQC.layer W tape) as [e|[u' tape']]; [reflexivity | apply IH]. }
    rewrite H. reflexivity.
Qed.

(** X5. The layer drawn with qiskit is the layer the classifier applies.
    With the parameters p_i, t_i, w_i set to the three angles of row i of
    a weight slice, the instructions of the drawn circuit are, in order,
    the elementary gates of the slice's layer (each Rot as RZ, RY, RZ),
    on the same wires, followed by the same ring of CNOTs; and the drawn
    circuit has n_qubits qubits. *)
Theorem drawn_circuit_is_the_layer :
  qiskit.num_qubits Drawing.qc = VQC.n_qubits /\
  forall (W : list (list Q)) (value : string -> Q),
    (forall i, (i < VQC.n_qubits)%nat ->
               value (Drawing.format_i "p" i) = entry W i 0 /\
               value (Drawing.format_i "t" i) = entry W i 1 /\
               value (Drawing.format_i "w" i) = entry W i 2) ->
    map (assign value) (qiskit.data Drawing.qc) = flat_map decompose (layer_gates W).
Proof.
  split; [reflexivity|].
  intros W value H.
  assert (H0 := H 0%nat). assert (H1 := H 1%nat).
  assert (H2 := H 2%nat). assert (H3 := H 3%nat).
  unfold VQC.n_qubits in H0, H1, H2, H3.
  destruct (H0 ltac:(lia)) as [P0 [T0 W0]].
  destruct (H1 ltac:(lia)) as [P1 [T1 W1]].
  destruct (H2 ltac:(lia)) as [P2 [T2 W2]].
  destruct (H3 ltac:(lia)) as [P3 [T3 W3]].
  clear H H0 H1 H2 H3.
  repeat match goal with
         | E : context [Drawing.format_i ?l ?i] |- _ =>
             let v := eval vm_compute in (Drawing.format_i l i) in
             change (Drawing.format_i l i) with v in E
         end.
  let d := eval vm_compute in (qiskit.data Drawing.qc) in
  change (qiskit.data Drawing.qc) with d.
  cbn [map assign flat_map decompose layer_gates app].
  rewrite P0, T0, W0, P1, T1, W1, P2, T2, W2, P3, T3, W3. reflexivity.
Qed.

Lemma drawn_circuit_is_the_layer_witness :
  map (assign (angles_of [[1; 2; 3]; [4; 5; 6]; [7; 8; 9]; [10; 11; 12]]))
      (qiskit.data Drawing.qc)
  = [RZ 1 0; RY 2 0; RZ 3 0; RZ 4 1; RY 5 1; RZ 6 1;
     RZ 7 2; RY 8 2; RZ 9 2; RZ 10 3; RY 11 3; RZ 12 3;
     CX 0 1; CX 1 2; CX 2 3; CX 3 0].
Proof.
  apply (proj2 drawn_circuit_is_the_layer
               [[1; 2; 3]; [4; 5; 6]; [7; 8; 9]; [10; 11; 12]]
               (angles_of [[1; 2; 3]; [4; 5; 6]; [7; 8; 9]; [10; 11; 12]])).
  intros i Hi. unfold VQC.n_qubits in Hi.
  destruct i as [|[|[|[|i]]]]; [| | | |lia]; repeat split; reflexivity.
Defined.

(** ** The Ising energy, as computed *)

Lemma circuit_qnode_three (measure : Simulator) (p1 p2 spins : list Q) :
  Ising.circuit_qnode measure p1 p2 = inr spins ->
  exists s0 s1 s2, spins = [s0; s1; s2].
Proof.
  unfold Ising.circuit_qnode. rewrite circuit_outcome.
  destruct (angles_ok p1 && angles_ok p2); cbn [bind Monad_res]; [|discriminate].
  intros H. apply comprehension_Forall2, Forall2_length in H.
  destruct spins as [|s0 [|s1 [|s2 [|s3 spins]]]]; try discriminate.
  exists s0, s1, s2. reflexivity.
Qed.

(** X6. The cost is the energy of the chain with couplings [1, -1]. When
    the execution of the circuit raises, cost raises the same exception,
    and it raises none of its own (the three expectation values it
    indexes are always there); otherwise it returns
    -(s0*s1) + s1*s2 = s1*(s2 - s0), which is the Hamiltonian
    H = -sum J_ij s_i s_j for the couplings J = [1, -1]. *)
Theorem cost_is_the_energy_for_couplings_1_m1 :
  forall (measure : Simulator) (var1 var2 : list Q),
    match Ising.circuit_qnode measure var1 var2 with
    | inl e => Ising.cost measure var1 var2 = inl e
    | inr spins =>
        exists s0 s1 s2 energy,
          spins = [s0; s1; s2] /\
          Ising.cost measure var1 var2 = inr energy /\
          energy == Ising.Hamiltonian [1; -1] spins /\
          energy == s1 * (s2 - s0)
    end.
Proof.
  intros measure var1 var2.
  destruct (Ising.circuit_qnode measure var1 var2) as [e|spins] eqn:Hq.
  - unfold Ising.cost. rewrite Hq. reflexivity.
  - destruct (circuit_qnode_three measure var1 var2 spins Hq) as [s0 [s1 [s2 ->]]].
    exists s0, s1, s2. eexists. split; [reflexivity|]. split.
    + unfold Ising.cost. rewrite Hq. reflexivity.
    + split; [unfold Ising.Hamiltonian; cbn; ring | ring].
Qed.

(** X7. The range of the cost. When the three expectation values lie in
    [-1, 1], the cost lies in [-2, 2]; the lower bound -2 is reached at
    the configuration [1, 1, -1]. *)
Theorem cost_lies_between_m2_and_2 :
  (forall (measure : Simulator) (var1 var2 spins : list Q) (energy : Q),
      Ising.circuit_qnode measure var1 var2 = inr spins ->
      Forall (fun s => -1 <= s <= 1) spins ->
      Ising.cost measure var1 var2 = inr energy ->
      -2 <= energy <= 2) /\
  (forall (measure : Simulator) (var1 var2 : list Q),
      Ising.circuit_qnode measure var1 var2 = inr [1; 1; -1] ->
      Ising.cost measure var1 var2 = inr (-2)).
Proof.
  split.
  - intros measure var1 var2 spins energy Hq Hs Hc.
    destruct (circuit_qnode_three measure var1 var2 spins Hq) as [s0 [s1 [s2 ->]]].
    unfold Ising.cost in Hc. rewrite Hq in Hc. cbn in Hc. injection Hc as <-.
    inversion Hs as [|? ? H0 Hs1]; subst.
    inversion Hs1 as [|? ? H1 Hs2]; subst.
    inversion Hs2 as [|? ? H2 _]; subst.
    split; nra.
  - intros measure var1 var2 Hq. unfold Ising.cost. rewrite Hq. reflexivity.
Qed.

Lemma cost_lies_between_m2_and_2_witness :
  -2 <= 2 <= 2 /\ Ising.cost Toy.measure [0; 0; 0] [0; 2; 0] = inr (-2).
Proof.
  split.
  - apply (proj1 cost_lies_between_m2_and_2 Toy.measure [0; 2; 0] [0; 2; 0]
                 [1; -1; -1] 2).
    + vm_compute. reflexivity.
    + repeat (apply Forall_cons || apply Forall_nil); split; discriminate.
    + vm_compute. reflexivity.
  - apply (proj2 cost_lies_between_m2_and_2 Toy.measure [0; 0; 0] [0; 2; 0]).
    vm_compute. reflexivity.
Defined.

(** ** Loss and accuracy beyond well-formed inputs *)

Lemma combine_firstn {A B : Type} (l : list A) (p : list B) :
  combine l (firstn (List.length l) p) = combine l p.
Proof.
  revert p. induction l as [|a l IH]; intros [|b p]; cbn; try reflexivity.
  rewrite IH. reflexivity.
Qed.

Lemma square_sum_nonneg (lp : list (Q * Q)) :
  0 <= Qsum (map (fun lp => (fst lp - snd lp) ^ 2) lp).
Proof.
  induction lp as [|[l p] lp IH]; cbn [map Qsum fold_right fst snd].
  - discriminate.
  - pose proof (Qsqr_nonneg (l - p)) as H. unfold Qsum in IH. lra.
Qed.

Lemma square_sum_zero (lp : list (Q * Q)) :
  Qsum (map (fun lp => (fst lp - snd lp) ^ 2) lp) == 0 <->
  Forall (fun lp => fst lp == snd lp) lp.
Proof.
  induction lp as [|[l p] lp IH]; cbn [map Qsum fold_right fst snd].
  - split; [constructor | reflexivity].
  - pose proof (Qsqr_nonneg (l - p)) as Hsq.
    pose proof (square_sum_nonneg lp) as Hsum. unfold Qsum in Hsum, IH.
    split.
    + intros H.
      assert (H1 : (l - p) ^ 2 == 0) by lra.
      assert (H2 : fold_right Qplus 0 (map (fun lp => (fst lp - snd lp) ^ 2) lp) == 0)
        by lra.
      constructor; [|apply IH, H2].
      cbn [fst snd]. simpl in H1.
      destruct (Qmult_integral _ _ H1); lra.
    + intros H. inversion H as [|? ? Hlp Hrest]; subst. cbn [fst snd] in Hlp.
      apply IH in Hrest. rewrite Hrest.
      assert (E : l - p == 0) by lra.
      simpl. rewrite E. ring.
Qed.

Lemma Forall_combine {A B : Type} (R : A -> B -> Prop) (l : list A) (p : list B) :
  List.length l = List.length p ->
  (Forall (fun lp => R (fst lp) (snd lp)) (combine l p) <-> Forall2 R l p).
Proof.
  revert p. induction l as [|a l IH]; intros [|b p] H; try discriminate.
  - split; constructor.
  - injection H as H. cbn [combine]. split; intros HF.
    + inversion HF; subst. constructor; [assumption | apply IH; assumption].
    + inversion HF; subst. constructor; [assumption | apply IH; assumption].
Qed.

Lemma positive_length (n : nat) : (0 < n)%nat -> 0 < inject_Z (Z.of_nat n).
Proof. intros H. change 0 with (inject_Z 0). rewrite <- Zlt_Qlt. lia. Qed.

Lemma quotient_zero (v n : Q) : 0 < n -> (v / n == 0 <-> v == 0).
Proof.
  intros Hn. split; intros H.
  - rewrite <- (Qmult_div_r v n) by lra. rewrite H. ring.
  - rewrite H. unfold Qdiv. ring.
Qed.

Lemma quotient_one (v n : Q) : 0 < n -> (v / n == 1 <-> v == n).
Proof.
  intros Hn. split; intros H.
  - rewrite <- (Qmult_div_r v n) by lra. rewrite H. ring.
  - rewrite H. apply Qmult_inv_r. lra.
Qed.

(** X8. squareLoss does not check that its arguments have one length.
    For labels that are not empty it always returns a value, which is
    not negative; predictions beyond the number of labels are ignored;
    and with no prediction at all the loss is 0. *)
Theorem squareLoss_on_mismatched_lengths :
  (forall labels predictions : list Q,
      labels <> [] ->
      exists loss, VQC.squareLoss labels predictions = inr loss /\ 0 <= loss) /\
  (forall labels predictions : list Q,
      VQC.squareLoss labels (firstn (List.length labels) predictions)
      = VQC.squareLoss labels predictions) /\
  (forall labels : list Q,
      labels <> [] ->
      exists loss, VQC.squareLoss labels [] = inr loss /\ loss == 0).
Proof.
  split; [|split].
  - intros labels predictions Hne.
    assert (Hn : (0 < List.length labels)%nat)
      by (destruct labels; [contradiction | simpl; lia]).
    unfold VQC.squareLoss, Py.len, Py.zip.
    rewrite (truediv_positive _ (List.length labels) Hn).
    eexists. split; [reflexivity|].
    rewrite fold_square_sum.
    apply Qle_shift_div_l; [apply positive_length, Hn|].
    pose proof (square_sum_nonneg (combine labels predictions)). lra.
  - intros labels predictions. unfold VQC.squareLoss, Py.zip.
    rewrite combine_firstn. reflexivity.
  - intros labels Hne.
    assert (Hn : (0 < List.length labels)%nat)
      by (destruct labels; [contradiction | simpl; lia]).
    unfold VQC.squareLoss, Py.len, Py.zip.
    rewrite (truediv_positive _ (List.length labels) Hn).
    eexists. split; [reflexivity|].
    destruct labels; cbn [combine fold_left]; unfold Qdiv; ring.
Qed.

Lemma squareLoss_on_mismatched_lengths_witness :
  exists loss, VQC.squareLoss [1; -1] [1; 1; 1; 1] = inr loss /\ 0 <= loss.
Proof.
  apply (proj1 squareLoss_on_mismatched_lengths [1; -1] [1; 1; 1; 1]).
  discriminate.
Defined.

(** X9. The loss vanishes exactly on exact predictions: on two sequences
    of one length, the value squareLoss returns is 0 if and only if
    every prediction equals its label. *)
Theorem squareLoss_zero_iff_exact :
  forall (labels predictions : list Q) (loss : Q),
    List.length labels = List.length predictions ->
    VQC.squareLoss labels predictions = inr loss ->
    (loss == 0 <-> Forall2 Qeq labels predictions).
Proof.
  intros labels predictions loss Hlen H.
  assert (Hn : (0 < List.length labels)%nat).
  { destruct labels; [discriminate H | simpl; lia]. }
  unfold VQC.squareLoss, Py.len, Py.zip in H.
  rewrite (truediv_positive _ (List.length labels) Hn) in H.
  injection H as <-.
  rewrite quotient_zero by (apply positive_length, Hn).
  rewrite fold_square_sum, Qplus_0_l, square_sum_zero.
  apply Forall_combine, Hlen.
Qed.

Lemma squareLoss_zero_iff_exact_witness :
  0 / 2 == 0 <-> Forall2 Qeq [1; -1] [1; -1].
Proof.
  apply (squareLoss_zero_iff_exact [1; -1] [1; -1] (0 / 2)).
  - reflexivity.
  - reflexivity.
Defined.

Lemma filter_keeps_all {A : Type} (f : A -> bool) (l : list A) :
  List.length (filter f l) = List.length l <-> Forall (fun a => f a = true) l.
Proof.
  induction l as [|a l IH]; cbn [filter List.length].
  - split; [constructor | reflexivity].
  - pose proof (filter_length_le f l) as Hle.
    destruct (f a) eqn:Ha; cbn [List.length]; split; intros H.
    + constructor; [exact Ha | apply IH; lia].
    + inversion H; subst. f_equal. apply IH. assumption.
    + lia.
    + inversion H; subst. congruence.
Qed.

Lemma filter_keeps_none {A : Type} (f : A -> bool) (l : list A) :
  List.length (filter f l) = 0%nat <-> Forall (fun a => f a = false) l.
Proof.
  induction l as [|a l IH]; cbn [filter List.length].
  - split; [constructor | reflexivity].
  - destruct (f a) eqn:Ha; cbn [List.length]; split; intros H.
    + discriminate.
    + inversion H; subst. congruence.
    + constructor; [exact Ha | apply IH, H].
    + inversion H; subst. apply IH. assumption.
Qed.

Lemma close_test (l p : Q) :
  ((if Qlt_le_dec (Qabs (l - p)) (1 # 100000) then true else false) = true
   <-> close l p) /\
  ((if Qlt_le_dec (Qabs (l - p)) (1 # 100000) then true else false) = false
   <-> ~ close l p).
Proof.
  unfold close. destruct (Qlt_le_dec (Qabs (l - p)) (1 # 100000)) as [Hlt|Hle].
  - split; split; intros H; try assumption; try reflexivity;
      [discriminate | contradiction].
  - split; split; intros H; try discriminate; try reflexivity.
    + exfalso. apply (Qle_not_lt _ _ Hle H).
    + intros Hlt. apply (Qle_not_lt _ _ Hle Hlt).
Qed.

Lemma accuracy_value (labels predictions : list Q) (acc : Q) :
  List.length labels = List.length predictions ->
  VQC.accuracy labels predictions = inr acc ->
  (0 < List.length labels)%nat /\
  acc = inject_Z (Z.of_nat
                    (List.length
                       (filter (fun lp => if Qlt_le_dec (Qabs (fst lp - snd lp)) (1 # 100000)
                                          then true else false)
                               (combine labels predictions))))
        / inject_Z (Z.of_nat (List.length (combine labels predictions))).
Proof.
  intros Hlen H.
  assert (Hn : (0 < List.length labels)%nat).
  { destruct labels; [discriminate H | simpl; lia]. }
  split; [exact Hn|].
  unfold VQC.accuracy, Py.len, Py.zip in H.
  rewrite (truediv_positive _ (List.length labels) Hn), fold_count in H.
  injection H as <-. cbn [Z.add].
  rewrite length_combine, <- Hlen, Nat.min_id. reflexivity.
Qed.

(** X10. The extremes of the accuracy. On two sequences of one length,
    the value accuracy returns is 1 if and only if every prediction is
    within 1e-5 of its label, and 0 if and only if none is. *)
Theorem accuracy_extremes :
  forall (labels predictions : list Q) (acc : Q),
    List.length labels = List.length predictions ->
    VQC.accuracy labels predictions = inr acc ->
    (acc == 1 <-> Forall2 close labels predictions) /\
    (acc == 0 <-> Forall2 (fun l p => ~ close l p) labels predictions).
Proof.
  intros labels predictions acc Hlen H.
  destruct (accuracy_value labels predictions acc Hlen H) as [Hn ->].
  assert (Hc : (0 < List.length (combine labels predictions))%nat)
    by (rewrite length_combine, <- Hlen, Nat.min_id; exact Hn).
  split.
  - rewrite quotient_one by (apply positive_length, Hc).
    rewrite <- (Forall_combine close labels predictions Hlen).
    rewrite inject_Z_injective, Nat2Z.inj_iff, filter_keeps_all.
    split; apply Forall_impl; intros [l p]; apply close_test.
  - rewrite quotient_zero by (apply positive_length, Hc).
    rewrite <- (Forall_combine (fun l p => ~ close l p) labels predictions Hlen).
    change 0 with (inject_Z (Z.of_nat 0)).
    rewrite inject_Z_injective, Nat2Z.inj_iff, filter_keeps_none.
    split; apply Forall_impl; intros [l p]; apply close_test.
Qed.

Lemma accuracy_extremes_witness :
  2 / 2 == 1 <-> Forall2 close [1; -1] [1; -1].
Proof.
  apply (accuracy_extremes [1; -1] [1; -1] (2 / 2)).
  - reflexivity.
  - reflexivity.
Defined.

Lemma sign_pair (l p : Q) :
  sign_value l -> sign_value p ->
  ((l - p) ^ 2 == 0 /\ close l p) \/ ((l - p) ^ 2 == 4 /\ ~ close l p).
Proof.
  unfold sign_value, close.
  change ((l - p) ^ 2) with ((l - p) * (l - p)).
  intros [Hl|Hl] [Hp|Hp]; rewrite Hl, Hp.
  - left. split; reflexivity.
  - right. split; [reflexivity | intros H; vm_compute in H; discriminate].
  - right. split; [reflexivity | intros H; vm_compute in H; discriminate].
  - left. split; reflexivity.
Qed.

Lemma sign_square_sum (lp : list (Q * Q)) :
  Forall (fun lp => sign_value (fst lp) /\ sign_value (snd lp)) lp ->
  Qsum (map (fun lp => (fst lp - snd lp) ^ 2) lp)
  == 4 * (inject_Z (Z.of_nat (List.length lp))
          - inject_Z (Z.of_nat
                        (List.length
                           (filter (fun lp => if Qlt_le_dec (Qabs (fst lp - snd lp))
                                                            (1 # 100000)
                                              then true else false) lp)))).
Proof.
  intros H. induction H as [|[l p] lp [Hl Hp] _ IH].
  - reflexivity.
  - cbn [map Qsum fold_right filter fst snd List.length].
    unfold Qsum in IH. rewrite IH.
    rewrite Nat2Z.inj_succ, <- Z.add_1_r, inject_Z_plus.
    destruct (sign_pair l p Hl Hp) as [[Hs Hc]|[Hs Hc]]; rewrite Hs.
    + apply (proj1 (close_test l p)) in Hc. rewrite Hc. cbn [List.length].
      rewrite Nat2Z.inj_succ, <- Z.add_1_r, inject_Z_plus.
      change (inject_Z 1) with 1. ring.
    + apply (proj2 (close_test l p)) in Hc. rewrite Hc.
      change (inject_Z 1) with 1. ring.
Qed.

(** X11. Loss and accuracy of a classifier with outputs in {-1, +1}. On
    labels and predictions that are all +1 or -1, of one length, the
    square loss and the accuracy carry the same information:
    squareLoss = 4 * (1 - accuracy). *)
Theorem squareLoss_from_accuracy_on_signs :
  forall (labels predictions : list Q) (loss acc : Q),
    Forall sign_value labels ->
    Forall sign_value predictions ->
    List.length labels = List.length predictions ->
    VQC.squareLoss labels predictions = inr loss ->
    VQC.accuracy labels predictions = inr acc ->
    loss == 4 * (1 - acc).
Proof.
  intros labels predictions loss acc Hl Hp Hlen Hloss Hacc.
  destruct (accuracy_value labels predictions acc Hlen Hacc) as [Hn ->].
  unfold VQC.squareLoss, Py.len, Py.zip in Hloss.
  rewrite (truediv_positive _ (List.length labels) Hn) in Hloss.
  injection Hloss as <-.
  assert (Hpairs : Forall (fun lp => sign_value (fst lp) /\ sign_value (snd lp))
                          (combine labels predictions)).
  { apply Forall_forall. intros [l p] Hin. cbn [fst snd].
    rewrite Forall_forall in Hl, Hp.
    split; [apply Hl, (in_combine_l _ _ _ _ Hin) | apply Hp, (in_combine_r _ _ _ _ Hin)]. }
  rewrite fold_square_sum, (sign_square_sum _ Hpairs).
  replace (List.length (combine labels predictions)) with (List.length labels)
    by (rewrite length_combine, <- Hlen, Nat.min_id; reflexivity).
  pose proof (positive_length _ Hn) as Hpos.
  field. lra.
Qed.

Lemma squareLoss_from_accuracy_on_signs_witness :
  (0 + (1 - 1) ^ 2 + (-1 - 1) ^ 2 + (1 - 1) ^ 2 + (-1 - -1) ^ 2) / 4
  == 4 * (1 - 3 / 4).
Proof.
  apply (squareLoss_from_accuracy_on_signs [1; -1; 1; -1] [1; 1; 1; -1]).
  - repeat (apply Forall_cons || apply Forall_nil);
      (left; reflexivity) || (right; reflexivity).
  - repeat (apply Forall_cons || apply Forall_nil);
      (left; reflexivity) || (right; reflexivity).
  - reflexivity.
  - reflexivity.
  - reflexivity.
Defined.

(** ** Predictions *)

Lemma sign_values (v : Q) : np.sign v = -1 \/ np.sign v = 0 \/ np.sign v = 1.
Proof.
  unfold np.sign. destruct (v ?= 0); [right; left | left | right; right]; reflexivity.
Qed.

(** X12. The predictions of the classifier. Whatever the simulator, the
    weights and the bias, when the list of predictions is computed it
    has one entry per row, and every entry is -1, 0 or 1; the entry is 0
    when the classifier's output is exactly 0, a prediction that agrees
    with neither label. *)
Theorem predictions_are_signs :
  forall (measure : Simulator) (w : np.tensor) (b : Q)
         (X : list (list scalar)) (predictions : list Q),
    VQC.predict measure w b X = inr predictions ->
    List.length predictions = List.length X /\
    Forall (fun v => v = -1 \/ v = 0 \/ v = 1) predictions /\
    Forall2 (fun x v => exists out,
                 VQC.variational_classifier measure w b x = inr out /\
                 v = np.sign out /\ (v = 0 <-> out == 0))
            X predictions.
Proof.
  intros measure w b X predictions H.
  unfold VQC.predict in H. apply comprehension_Forall2 in H.
  assert (HF : Forall2 (fun x v => exists out,
                            VQC.variational_classifier measure w b x = inr out /\
                            v = np.sign out /\ (v = 0 <-> out == 0))
                       X predictions).
  { eapply Forall2_impl; [|exact H]. cbv beta. intros x v Hx.
    apply bind_inr in Hx. destruct Hx as [out [Hout Hv]].
    cbn in Hv. injection Hv as <-.
    exists out. split; [exact Hout|]. split; [reflexivity|].
    unfold np.sign.
    destruct (out ?= 0) eqn:E; split; intros H0;
      try reflexivity; try discriminate;
      try (apply Qeq_alt, E); apply Qeq_alt in H0; congruence. }
  split; [symmetry; apply (Forall2_length HF)|]. split; [|exact HF].
  clear H. induction HF as [|x v X P [out [_ [-> _]]] _ IH]; constructor.
  - apply sign_values.
  - exact IH.
Qed.

Lemma predictions_are_signs_witness :
  List.length [1; 1] = List.length [[Int 0; Int 0; Int 0; Int 0]; [Int 0; Int 1; Int 0; Int 0]].
Proof.
  apply (predictions_are_signs Toy.measure [] 0
           [[Int 0; Int 0; Int 0; Int 0]; [Int 0; Int 1; Int 0; Int 0]] [1; 1]).
  vm_compute. reflexivity.
Defined.

(** ** Batches *)

Lemma cost_of_empty_batch (measure : Simulator) (w : np.tensor) (b : Q) :
  VQC.cost measure w b [] [] = inl ZeroDivisionError.
Proof. reflexivity. Qed.

(** X13. Training needs at least n_it rows. The batch size is
    len(X_train) // n_it: it is 0 exactly when there are fewer than
    n_it = 35 rows, and n_it batches never hold more samples than there
    are rows. An empty batch has cost ZeroDivisionError; so with fewer
    than 35 rows, as soon as the generator has returned the (empty)
    batch index and the optimiser evaluates the cost, the first
    iteration of the training loop stops with ZeroDivisionError. *)
Theorem training_needs_n_it_rows :
  (forall (A : Type) (X : list A),
      VQC.batch_size X = 0%nat <-> (List.length X < VQC.n_it)%nat) /\
  (forall (A : Type) (X : list A),
      (VQC.n_it * VQC.batch_size X <= List.length X)%nat) /\
  (forall (measure : Simulator) (w : np.tensor) (b : Q),
      VQC.cost measure w b [] [] = inl ZeroDivisionError) /\
  (forall (measure : Simulator) (G O : Type)
          (randint : nat -> nat -> nat -> G -> res (list nat) * G)
          (adam_step :
             O -> (np.tensor -> Q -> list (list scalar) -> list Q -> res Q) ->
             np.tensor -> Q -> list (list scalar) -> list Q ->
             res (np.tensor * Q * O))
          (X_train : list (list scalar)) (Y_train : list Q) (it : nat)
          (s : VQC.kernel G O) (index : list nat) (g : G),
      (List.length X_train < VQC.n_it)%nat ->
      randint 0%nat (Py.len X_train) (VQC.batch_size X_train) (VQC.np_random s)
      = (inr index, g) ->
      List.length index = VQC.batch_size X_train ->
      (forall o f w b Xb Yb e,
          f w b Xb Yb = inl e -> adam_step o f w b Xb Yb = inl e) ->
      fst (VQC.loop_body measure randint adam_step X_train Y_train
                         (VQC.batch_size X_train) it s)
      = inl ZeroDivisionError).
Proof.
  assert (Hzero : forall (A : Type) (X : list A),
             VQC.batch_size X = 0%nat <-> (List.length X < VQC.n_it)%nat).
  { intros A X. unfold VQC.batch_size, Py.len, VQC.n_it.
    rewrite Nat.div_small_iff by discriminate. reflexivity. }
  split; [exact Hzero|]. split; [|split].
  - intros A X. unfold VQC.batch_size, Py.len, VQC.n_it.
    apply Nat.Div0.mul_div_le.
  - intros. reflexivity.
  - intros measure G O randint adam_step X_train Y_train it s index g
           Hsmall Hrand Hlen Hadam.
    apply Hzero in Hsmall. rewrite Hsmall in *.
    destruct index; [|discriminate].
    unfold VQC.loop_body, VQC.opt_step.
    cbn -[VQC.predict VQC.accuracy VQC.cost np.take].
    rewrite Hrand.
    cbn -[VQC.predict VQC.accuracy VQC.cost].
    rewrite (Hadam _ _ _ _ _ _ ZeroDivisionError (cost_of_empty_batch measure _ _)).
    reflexivity.
Qed.

Lemma training_needs_n_it_rows_witness :
  fst (VQC.loop_body Toy.measure Toy.randint Toy.adam_step
                     [[Int 1; Int 0; Int 0; Int 1]; [Int 0; Int 0; Int 1; Int 0]]
                     [1; -1] 0 0 Toy.kernel0)
  = inl ZeroDivisionError.
Proof.
  apply (proj2 (proj2 (proj2 training_needs_n_it_rows))
               Toy.measure nat nat Toy.randint Toy.adam_step
               [[Int 1; Int 0; Int 0; Int 1]; [Int 0; Int 0; Int 1; Int 0]]
               [1; -1] 0%nat Toy.kernel0 [] 1%nat).
  - unfold VQC.n_it. simpl. lia.
  - reflexivity.
  - reflexivity.
  - intros o f w b Xb Yb e H. unfold Toy.adam_step. rewrite H. reflexivity.
Defined.

(** ** The data cells on incomplete files *)

Lemma missing_absent (df : pd.DataFrame) (ks : list string) :
  pd.missing df ks = absent df ks.
Proof.
  unfold pd.missing, absent. apply filter_ext. intros k.
  rewrite has_column_getcol. destruct (pd.getcol df k); reflexivity.
Qed.

Lemma has_column_setcol_other (df : pd.DataFrame) (k0 k : string) (c : pd.column) :
  k0 <> k -> has_column (pd.setcol df k0 c) k = has_column df k.
Proof.
  intros Hne. rewrite !has_column_getcol, getcol_setcol_other by exact Hne.
  reflexivity.
Qed.

(** X14. The loading cell and the columns of the file. Once the file is
    read, the cell succeeds exactly when the file has the columns
    Pclass, Sex and Embarked. Without Pclass it raises KeyError for
    Pclass, from the lookup of that one column; with Pclass but without
    Sex or Embarked, the selection of the three columns raises one
    KeyError that names every missing column. *)
Theorem loading_cell_needs_three_columns :
  forall (read_csv : string -> res pd.DataFrame) (repr : Q -> string)
         (csv : pd.DataFrame),
    read_csv "TitanicData/train.csv"%string = inr csv ->
    if has_column csv "Pclass"
    then match absent csv ["Sex"; "Embarked"]%string with
         | [] => exists train, VQC.cell_read read_csv repr = inr train
         | k :: ks =>
             VQC.cell_read read_csv repr = inl (KeyErrorNotInIndex (k :: ks))
         end
    else VQC.cell_read read_csv repr = inl (KeyError "Pclass").
Proof.
  intros read_csv repr csv Hfile.
  unfold VQC.cell_read. rewrite Hfile.
  cbn [bind Monad_res].
  destruct (has_column csv "Pclass") eqn:HP.
  2:{ rewrite (getcol_missing csv "Pclass" HP). reflexivity. }
  destruct (getcol_present csv "Pclass" HP) as [c ->].
  cbn [bind Monad_res].
  set (df := pd.setcol csv "Pclass" (pd.astype_str repr c)).
  assert (Hmiss : pd.missing df ["Pclass"; "Sex"; "Embarked"]%string
                  = absent csv ["Sex"; "Embarked"]%string).
  { rewrite missing_absent. unfold absent, df. cbn [filter].
    rewrite (has_column_setcol_other csv "Pclass" "Sex") by discriminate.
    rewrite (has_column_setcol_other csv "Pclass" "Embarked") by discriminate.
    replace (has_column (pd.setcol csv "Pclass" (pd.astype_str repr c)) "Pclass")
      with true; [reflexivity|].
    symmetry. rewrite has_column_getcol, getcol_setcol_same. reflexivity. }
  unfold pd.select. rewrite Hmiss.
  destruct (absent csv ["Sex"; "Embarked"]%string) as [|k ks] eqn:Habs;
    [|reflexivity].
  assert (HS : has_column csv "Sex" = true /\ has_column csv "Embarked" = true).
  { unfold absent in Habs. cbn [filter] in Habs.
    destruct (has_column csv "Sex"), (has_column csv "Embarked");
      cbn [negb] in Habs; try discriminate Habs. split; reflexivity. }
  destruct HS as [HS HE].
  cbn [Py.comprehension]. unfold df.
  rewrite getcol_setcol_same. cbn [bind Monad_res].
  rewrite !getcol_setcol_other by discriminate.
  destruct (getcol_present csv "Sex" HS) as [cs ->].
  destruct (getcol_present csv "Embarked" HE) as [ce ->].
  cbn [bind Monad_res ret]. eexists. reflexivity.
Qed.

Lemma loading_cell_needs_three_columns_witness :
  exists train, VQC.cell_read Toy.read_csv Toy.repr = inr train.
Proof.
  apply (loading_cell_needs_three_columns Toy.read_csv Toy.repr Toy.csv).
  reflexivity.
Defined.

Lemma comprehension_total {A B : Type} (f : A -> res B) (l : list A) :
  Forall (fun a => exists b, f a = inr b) l ->
  exists r, Py.comprehension f l = inr r.
Proof.
  intros H. induction H as [|a l [b Hb] _ [r Hr]]; cbn [Py.comprehension].
  - eexists. reflexivity.
  - rewrite Hb. cbn [bind Monad_res]. rewrite Hr. eexists. reflexivity.
Qed.

Lemma is_child_of_numeric (c : pd.column) :
  pd.is_object c = false ->
  exists child, pd.map_int VQC.is_child_lambda c = inr child.
Proof.
  intros Hc. unfold pd.map_int.
  assert (H : Forall (fun a => exists z, VQC.is_child_lambda a = inr z) (pd.cells c)).
  { destruct c as [v|v|v]; [| |discriminate]; cbn [pd.cells];
      apply Forall_forall; intros a Hin; apply in_map_iff in Hin;
      destruct Hin as [z [<- _]].
    - eexists. reflexivity.
    - destruct z; eexists; reflexivity. }
  destruct (comprehension_total _ _ H) as [zs ->].
  eexists. reflexivity.
Qed.

(** X15. The age cell and the Age column. The cell raises KeyError when
    the frame has no Age column and TypeError when Age is a column of
    strings; on an integer or float Age column it succeeds, whatever the
    values (also when every age is missing). *)
Theorem age_cell_needs_a_numeric_age :
  forall train0 : pd.DataFrame,
    match pd.getcol train0 "Age" with
    | inl _ => VQC.cell_age train0 = inl (KeyError "Age")
    | inr (pd.StrCol _) => VQC.cell_age train0 = inl TypeError
    | inr _ => exists train, VQC.cell_age train0 = inr train
    end.
Proof.
  intros train0. unfold VQC.cell_age.
  destruct (has_column train0 "Age") eqn:HA.
  2:{ rewrite (getcol_missing train0 "Age" HA). reflexivity. }
  destruct (getcol_present train0 "Age" HA) as [age ->].
  cbn [bind Monad_res].
  destruct age as [v|v|v]; cbn [pd.median bind Monad_res]; [| |reflexivity];
    rewrite getcol_setcol_same; cbn [bind Monad_res].
  - destruct (is_child_of_numeric (pd.fillna (pd.IntCol v) (pd.median_of (map inject_Z v))))
      as [child ->]; [reflexivity|].
    eexists. reflexivity.
  - destruct (is_child_of_numeric (pd.fillna (pd.FloatCol v) (pd.median_of (pd.present v))))
      as [child ->]; [destruct (pd.median_of (pd.present v)); reflexivity|].
    eexists. reflexivity.
Qed.

Lemma setcol_same_column (df : pd.DataFrame) (k : string) (c : pd.column) :
  pd.getcol df k = inr c -> pd.setcol df k c = df.
Proof.
  induction df as [|[k' c'] df IH]; cbn [pd.getcol pd.setcol]; [discriminate|].
  destruct (String.eqb_spec k' k) as [->|Hne].
  - intros H. injection H as ->. reflexivity.
  - intros H. rewrite (IH H). reflexivity.
Qed.

Lemma fillna_twice (age : pd.column) (m : option Q) :
  pd.median age = inr m ->
  exists m', pd.median (pd.fillna age m) = inr m' /\
             pd.fillna (pd.fillna age m) m' = pd.fillna age m.
Proof.
  destruct age as [v|v|v]; cbn [pd.median]; intros H; [| |discriminate].
  - exists m. destruct m; split; (exact H || reflexivity).
  - injection H as <-.
    destruct (pd.median_of (pd.present v)) as [q|] eqn:Hm; cbn [pd.fillna].
    + set (v' := map (fun o => match o with Some _ => o | None => Some q end) v).
      exists (pd.median_of (pd.present v')). split; [reflexivity|].
      destruct (pd.median_of (pd.present v')) as [q'|]; cbn [pd.fillna];
        [|reflexivity].
      unfold v'. rewrite map_map. f_equal. apply map_ext. intros [a|]; reflexivity.
    + exists None. split; [cbn [pd.median]; rewrite Hm; reflexivity | reflexivity].
Qed.

(** X16. Running the age cell again changes nothing. When the age cell
    has run on a frame, running it on the frame it produced succeeds and
    returns that frame unchanged: the ages are already filled in, and
    the Age and is_child columns are replaced by themselves. *)
Theorem age_cell_is_idempotent :
  forall train0 train : pd.DataFrame,
    VQC.cell_age train0 = inr train ->
    VQC.cell_age train = inr train.
Proof.
  intros train0 train H. unfold VQC.cell_age in H.
  apply bind_inr in H. destruct H as [age0 [Hage0 H]].
  apply bind_inr in H. destruct H as [age0' [Hage0' H]].
  rewrite Hage0 in Hage0'. injection Hage0' as <-.
  apply bind_inr in H. destruct H as [m [Hm H]].
  rewrite getcol_setcol_same in H. cbn [bind Monad_res] in H.
  apply bind_inr in H. destruct H as [child [Hchild H]].
  cbn in H. injection H as <-.
  destruct (fillna_twice age0 m Hm) as [m' [Hm' Hfill]].
  set (filled := pd.fillna age0 m) in *.
  set (train := pd.setcol (pd.setcol train0 "Age" filled) "is_child" child).
  assert (HA : pd.getcol train "Age" = inr filled).
  { unfold train. rewrite getcol_setcol_other by discriminate.
    apply getcol_setcol_same. }
  assert (HC : pd.getcol train "is_child" = inr child)
    by apply getcol_setcol_same.
  unfold VQC.cell_age. rewrite HA. cbn [bind Monad_res].
  rewrite Hm'. cbn [bind Monad_res]. rewrite Hfill.
  rewrite (setcol_same_column train "Age" filled HA), HA.
  cbn [bind Monad_res]. rewrite Hchild. cbn [bind Monad_res ret].
  rewrite (setcol_same_column train "is_child" child HC). reflexivity.
Qed.

Lemma age_cell_is_idempotent_witness :
  VQC.cell_age Toy.train = inr Toy.train.
Proof.
  apply (age_cell_is_idempotent Toy.train0 Toy.train).
  vm_compute. reflexivity.
Defined.

(** ** What the data cells leave alone *)

(** X17. The data cells keep the file's other columns. After the loading
    and the age cells, every column of the file other than Pclass, Age
    and is_child is still in the frame, under its name and with its
    values unchanged; in particular the Survived labels are those of the
    file. (Pclass is turned into strings, Age is filled in.) *)
Theorem data_cells_keep_other_columns :
  forall (read_csv : string -> res pd.DataFrame) (repr : Q -> string)
         (csv train0 train : pd.DataFrame) (k : string),
    read_csv "TitanicData/train.csv"%string = inr csv ->
    VQC.cell_read read_csv repr = inr train0 ->
    VQC.cell_age train0 = inr train ->
    has_column csv k = true ->
    k <> "Pclass"%string -> k <> "Age"%string -> k <> "is_child"%string ->
    pd.getcol train k = pd.getcol csv k.
Proof.
  intros read_csv repr csv train0 train k Hfile Hread Hage Hk HP HA HC.
  destruct (cell_read_shape read_csv repr csv train0 Hfile Hread)
    as [c [sel [_ [_ ->]]]].
  unfold VQC.cell_age in Hage.
  apply bind_inr in Hage. destruct Hage as [age0 [_ Hage]].
  apply bind_inr in Hage. destruct Hage as [age0' [_ Hage]].
  apply bind_inr in Hage. destruct Hage as [m [_ Hage]].
  apply bind_inr in Hage. destruct Hage as [age1 [_ Hage]].
  apply bind_inr in Hage. destruct Hage as [child [_ Hage]].
  cbn in Hage. injection Hage as <-.
  rewrite !getcol_setcol_other by congruence.
  rewrite getcol_app_in by (apply has_column_setcol, Hk).
  apply getcol_setcol_other. congruence.
Qed.

Lemma data_cells_keep_other_columns_witness :
  pd.getcol Toy.train "Survived" = pd.getcol Toy.csv "Survived".
Proof.
  apply (data_cells_keep_other_columns Toy.read_csv Toy.repr Toy.csv Toy.train0).
  - reflexivity.
  - vm_compute. reflexivity.
  - vm_compute. reflexivity.
  - reflexivity.
  - discriminate.
  - discriminate.
  - discriminate.
Defined.

(** ** What the Ising optimisation cell records *)

Lemma printed_steps_app (out out' : list event) :
  printed_steps (out ++ out') = printed_steps out ++ printed_steps out'.
Proof. unfold printed_steps. apply flat_map_app. Qed.

Lemma logged_succ (k : nat) :
  logged (S k) = logged k ++ (if logs k then [k] else []).
Proof. unfold logged. rewrite seq_S, filter_app. reflexivity. Qed.

Section IsingRecords.

Variable measure : Simulator.
Variable sgd_step :
  Q -> (list Q -> list Q -> res Q) -> list Q * list Q -> res (list Q * list Q).
Variable printed0 : list nat.

Lemma ising_body_records (k : nat) (s : Ising.kernel) :
  recorded printed0 k s ->
  match Ising.loop_body measure sgd_step k s with
  | (inr _, s') => recorded printed0 (S k) s'
  | (inl _, s') => interrupted s'
  end.
Proof.
  intros [Hx [Hc [Hv [Ha Hp]]]].
  unfold Ising.loop_body, Ising.opt_step, Ising.closure.
  cbn [bind Monad_M modify get eval ret fst snd].
  cbn [Ising.emit Ising.set_params Ising.p1 Ising.p2 Ising.cost_init
       Ising.var_pt Ising.cost_pt Ising.x Ising.out].
  destruct (sgd_step _ _ _) as [e|[a b]].
  { unfold interrupted. cbn. rewrite Hx, Hc, Hv. cbn. auto. }
  fold (logs k). unfold recorded. rewrite logged_succ.
  destruct (logs k).
  - cbn [bind Monad_M modify get eval ret fst snd Ising.emit Ising.set_params
         Ising.set_x Ising.set_var_pt Ising.set_cost_pt
         Ising.p1 Ising.p2 Ising.cost_init Ising.var_pt Ising.cost_pt
         Ising.x Ising.out].
    destruct (Ising.cost measure a b) as [e|costn].
    + unfold interrupted. cbn. rewrite Hx, Hc, Hv, length_app. cbn.
      split; [reflexivity|]. split; [right; lia | exact Ha].
    + cbn. rewrite Hx, !length_app, Hc, Hv, !printed_steps_app, Hp, map_app.
      cbn. rewrite app_nil_r, <- app_assoc.
      split; [reflexivity|]. split; [lia|]. split; [lia|].
      split; [|reflexivity].
      apply Forall_app. split; [exact Ha | repeat constructor].
  - cbn. rewrite !app_nil_r, printed_steps_app. cbn. rewrite app_nil_r.
    repeat split; assumption.
Qed.

Lemma ising_cell_records (s : Ising.kernel) :
  printed_steps (Ising.out s) = printed0 ->
  match Ising.cell_optimise measure sgd_step s with
  | (inr _, s') => recorded printed0 100 s'
  | (inl _, s') => interrupted s'
  end.
Proof.
  intros Hp. unfold Ising.cell_optimise.
  cbn [bind Monad_M modify get eval ret fst snd].
  apply (for_invariant (recorded printed0) interrupted (Py.range 100)
           (Ising.loop_body measure sgd_step)).
  - intros k a s1 Hk Hrec.
    assert (Hlt : (k < List.length (Py.range 100))%nat)
      by (apply nth_error_Some; congruence).
    pose proof (nth_error_nth _ _ 0%nat Hk) as Ha.
    unfold Py.range in Ha, Hlt. rewrite length_seq in Hlt.
    rewrite seq_nth in Ha by exact Hlt. cbn in Ha. subst a.
    apply ising_body_records. exact Hrec.
  - unfold recorded. rewrite <- Hp. cbn. rewrite app_nil_r.
    repeat split. repeat constructor.
Qed.

End IsingRecords.

(** X18. The optimisation cell of the Ising notebook logs every fifth step.
    When the cell completes, [x] is 0 followed by 4, 9, ..., 99, the lists
    [cost_pt] and [var_pt] have 21 entries each, and the steps printed are
    5, 10, ..., 100, after whatever was printed before.  When an iteration
    raises, [cost_pt] and [var_pt] are of equal length and [x] has the same
    length or one entry more (the entry appended before the cost was
    evaluated). *)
Theorem ising_cell_logs_every_fifth_step
    (measure : Simulator)
    (sgd_step : Q -> (list Q -> list Q -> res Q) -> list Q * list Q ->
                res (list Q * list Q))
    (s : Ising.kernel) :
  let run := Ising.cell_optimise measure sgd_step s in
  (forall u, fst run = inr u ->
     Ising.x (snd run) = 0%nat :: map (fun k => 5 * k + 4)%nat (seq 0 20) /\
     List.length (Ising.cost_pt (snd run)) = 21%nat /\
     List.length (Ising.var_pt (snd run)) = 21%nat /\
     printed_steps (Ising.out (snd run)) =
       printed_steps (Ising.out s) ++ map (fun k => 5 * k + 5)%nat (seq 0 20)) /\
  (forall e, fst run = inl e ->
     List.length (Ising.var_pt (snd run)) =
       List.length (Ising.cost_pt (snd run)) /\
     (List.length (Ising.x (snd run)) =
        List.length (Ising.cost_pt (snd run)) \/
      List.length (Ising.x (snd run)) =
        S (List.length (Ising.cost_pt (snd run))))).
Proof.
  intros run. subst run.
  pose proof (ising_cell_records measure sgd_step _ s eq_refl) as H.
  destruct (Ising.cell_optimise measure sgd_step s) as [[e|u] s'];
    cbn [fst snd]; split; try discriminate.
  - intros _ _. destruct H as [Hv [Hx _]]. split; assumption.
  - intros _ _. destruct H as [Hx [Hc [Hv [_ Hp]]]].
    rewrite Hx, Hc, Hv, Hp. repeat split.
Qed.

Lemma ising_cell_logs_every_fifth_step_witness :
  List.length
    (Ising.cost_pt
       (snd (Ising.cell_optimise Toy.measure Toy.sgd_step Toy.ising_ready)))
  = 21%nat.
Proof.
  pose proof (proj1 (ising_cell_logs_every_fifth_step
                       Toy.measure Toy.sgd_step Toy.ising_ready) tt) as H.
  refine (proj1 (proj2 (H _))).
  vm_compute. reflexivity.
Defined.

(** ** What the training cell prints *)

Section TrainingLog.

Variable measure : Simulator.
Variables G O : Type.
Variable randint : nat -> nat -> nat -> G -> res (list nat) * G.
Variable adam_step :
  O ->
  (np.tensor -> Q -> list (list scalar) -> list Q -> res Q) ->
  np.tensor -> Q -> list (list scalar) -> list Q ->
  res (np.tensor * Q * O).
Variable X : list (list scalar).
Variable Y : list Q.
Variable batch : nat.
Variable printed0 : list nat.
Variable steps0 : nat.

Lemma vqc_body_prints (k : nat) (s : VQC.kernel G O) :
  (k < VQC.n_it)%nat ->
  trained printed0 steps0 k s ->
  match VQC.loop_body measure randint adam_step X Y batch k s with
  | (inr _, s') => trained printed0 steps0 (S k) s'
  | (inl _, s') => stopped printed0 steps0 s'
  end.
Proof.
  intros Hk [Hp Hs].
  assert (Hstop0 : forall s' : VQC.kernel G O,
             VQC.out s' = VQC.out s -> stopped printed0 steps0 s').
  { intros s' E. exists k. rewrite E. auto. }
  assert (Hstop1 : forall s' : VQC.kernel G O,
             VQC.out s' = VQC.out s ++ [OptStep] -> stopped printed0 steps0 s').
  { intros s' E. exists k. rewrite E, printed_steps_app, steps_app.
    cbn. rewrite app_nil_r. split; [exact Hk|]. split; [exact Hp | right; lia]. }
  unfold VQC.loop_body, VQC.opt_step.
  cbn -[VQC.predict VQC.accuracy VQC.cost np.take steps printed_steps].
  destruct (randint _ _ _ _) as [[e|index] g]; [apply Hstop0; reflexivity|].
  destruct (np.take X index) as [e|X_batch]; [apply Hstop0; reflexivity|].
  destruct (np.take Y index) as [e|Y_batch]; [apply Hstop0; reflexivity|].
  cbn -[VQC.predict VQC.accuracy VQC.cost np.take steps printed_steps].
  destruct (adam_step _ _ _ _ _ _) as [e|[[w b] o]];
    [apply Hstop1; reflexivity|].
  cbn -[VQC.predict VQC.accuracy VQC.cost np.take steps printed_steps].
  destruct (VQC.predict measure w b X) as [e|predictions];
    [apply Hstop1; reflexivity|].
  destruct (VQC.accuracy Y predictions) as [e|acc];
    [apply Hstop1; reflexivity|].
  destruct (VQC.cost measure w b X Y) as [e|c];
    [apply Hstop1; reflexivity|].
  unfold trained. cbn -[steps printed_steps seq].
  rewrite !printed_steps_app, !steps_app, Hp, Hs, seq_S. cbn.
  rewrite app_nil_r, <- app_assoc, (Nat.add_comm k 1).
  split; [reflexivity | lia].
Qed.

Lemma vqc_cell_prints (w0 : np.tensor) (b0 : Q) (s : VQC.kernel G O) :
  printed_steps (VQC.out s) = printed0 ->
  steps (VQC.out s) = steps0 ->
  match VQC.cell_train measure randint adam_step w0 b0 X Y batch s with
  | (inr _, s') => trained printed0 steps0 VQC.n_it s'
  | (inl _, s') => stopped printed0 steps0 s'
  end.
Proof.
  intros Hp Hs. unfold VQC.cell_train, VQC.cell_train_for.
  cbn [bind Monad_M modify get eval ret fst snd].
  replace VQC.n_it with (List.length (Py.range VQC.n_it)) at 2
    by apply length_seq.
  apply (for_invariant (trained printed0 steps0) (stopped printed0 steps0) (Py.range VQC.n_it)
           (VQC.loop_body measure randint adam_step X Y batch)).
  - intros k a s1 Hk Hrec.
    assert (Hlt : (k < List.length (Py.range VQC.n_it))%nat)
      by (apply nth_error_Some; congruence).
    pose proof (nth_error_nth _ _ 0%nat Hk) as Ha.
    unfold Py.range in Ha, Hlt. rewrite length_seq in Hlt.
    rewrite seq_nth in Ha by exact Hlt. cbn in Ha. subst a.
    apply vqc_body_prints; assumption.
  - unfold trained. cbn [VQC.out VQC.set_model seq].
    rewrite app_nil_r, Nat.add_0_r. split; assumption.
Qed.

End TrainingLog.

(** X20. The training cell of the VQC notebook prints one line per
    completed iteration, numbered 1, 2, ...: whatever happens, the lines it
    has printed are numbered 1..k for some k <= 35.  When the cell
    completes k is 35; when an iteration raises, k < 35 and the optimiser
    was stepped k or k + 1 times (the step of the failing iteration may
    have been taken before the error). *)
Theorem training_cell_prints_each_iteration
    (measure : Simulator) (G O : Type)
    (randint : nat -> nat -> nat -> G -> res (list nat) * G)
    (adam_step :
       O ->
       (np.tensor -> Q -> list (list scalar) -> list Q -> res Q) ->
       np.tensor -> Q -> list (list scalar) -> list Q ->
       res (np.tensor * Q * O))
    (weights_init : np.tensor) (bias_init : Q)
    (X_train : list (list scalar)) (Y_train : list Q) (batch : nat)
    (s : VQC.kernel G O) :
  let run := VQC.cell_train measure randint adam_step
                            weights_init bias_init X_train Y_train batch s in
  exists k,
    (k <= 35)%nat /\
    printed_steps (VQC.out (snd run)) = printed_steps (VQC.out s) ++ seq 1 k /\
    (forall u, fst run = inr u -> k = 35%nat) /\
    (forall e, fst run = inl e ->
       (k < 35)%nat /\
       (steps (VQC.out (snd run)) = (steps (VQC.out s) + k)%nat \/
        steps (VQC.out (snd run)) = (steps (VQC.out s) + k + 1)%nat)).
Proof.
  intros run. subst run.
  pose proof (vqc_cell_prints measure G O randint adam_step X_train Y_train
                batch _ _ weights_init bias_init s eq_refl eq_refl) as H.
  destruct (VQC.cell_train measure randint adam_step
              weights_init bias_init X_train Y_train batch s) as [[e|u] s'];
    cbn [fst snd].
  - destruct H as [k [Hk [Hp Hs]]]. exists k. unfold VQC.n_it in Hk.
    split; [lia|]. split; [exact Hp|]. split; [discriminate|].
    intros _ _. split; assumption.
  - destruct H as [Hp _]. exists 35%nat.
    split; [lia|]. split; [exact Hp|]. split; [reflexivity | discriminate].
Qed.

Lemma training_cell_prints_each_iteration_witness :
  printed_steps
    (VQC.out
       (snd (VQC.cell_train Toy.measure Toy.randint Toy.adam_step
               (np.scale (1 # 100) (fst (np.randn Toy.standard_normal 2 4 3 O)))
               0 [[Int 1; Int 0; Int 0; Int 1]] [1] 1 Toy.kernel0)))
  = seq 1 35.
Proof.
  assert (Hrun : fst (VQC.cell_train Toy.measure Toy.randint Toy.adam_step
                        (np.scale (1 # 100)
                                  (fst (np.randn Toy.standard_normal 2 4 3 O)))
                        0 [[Int 1; Int 0; Int 0; Int 1]] [1] 1 Toy.kernel0)
                 = inr tt).
  { vm_compute. reflexivity. }
  destruct (training_cell_prints_each_iteration
              Toy.measure nat nat Toy.randint Toy.adam_step
              (np.scale (1 # 100) (fst (np.randn Toy.standard_normal 2 4 3 O)))
              0 [[Int 1; Int 0; Int 0; Int 1]] [1] 1 Toy.kernel0)
    as [k [_ [Hp [Hk _]]]].
  rewrite (Hk tt Hrun) in Hp. exact Hp.
Defined.

(** ** The indicator columns of the passenger classes *)

Lemma Z_to_int_proper (z : Z) :
  Z.to_int z <> Decimal.Pos Decimal.Nil /\ Z.to_int z <> Decimal.Neg Decimal.Nil.
Proof.
  destruct z as [|p|p]; cbn [Z.to_int]; split; try discriminate;
    intros H; injection H as H;
    exact (DecimalPos.Unsigned.to_uint_nonnil p H).
Qed.

Lemma str_of_int_injective (a b : Z) :
  pd.str_of_int a = pd.str_of_int b -> a = b.
Proof.
  unfold pd.str_of_int. intros H.
  destruct (Z_to_int_proper a) as [Ha1 Ha2].
  destruct (Z_to_int_proper b) as [Hb1 Hb2].
  pose proof (NilZero.isi (Z.to_int a) Ha1 Ha2) as Ia.
  pose proof (NilZero.isi (Z.to_int b) Hb1 Hb2) as Ib.
  rewrite H, Ib in Ia. injection Ia as Ia.
  rewrite <- (DecimalZ.of_to a), <- (DecimalZ.of_to b), Ia. reflexivity.
Qed.

(** X21. The indicator columns of the passenger class. After the data
    cells the frame has a column Pclass_<z> exactly for the class numbers
    z that occur in the file's integer Pclass column (the file itself
    having no column of that name).  So when no passenger of the file
    travels first class, or none second class, the selection of the
    model's columns raises one KeyError that names every missing column:
    Pclass_1 exactly when no passenger travels first class, Pclass_2
    exactly when none travels second class, and never is_child. *)
Theorem class_columns_follow_the_classes_present :
  forall (read_csv : string -> res pd.DataFrame) (repr : Q -> string)
         (csv train0 train : pd.DataFrame) (classes : list Z),
    read_csv "TitanicData/train.csv"%string = inr csv ->
    pd.getcol csv "Pclass" = inr (pd.IntCol classes) ->
    VQC.cell_read read_csv repr = inr train0 ->
    VQC.cell_age train0 = inr train ->
    (forall z : Z,
        has_column csv ("Pclass_" ++ pd.str_of_int z) = false ->
        (has_column train ("Pclass_" ++ pd.str_of_int z) = true <->
         In z classes)) /\
    (has_column csv "Pclass_1" = false -> has_column csv "Pclass_2" = false ->
     ~ In 1%Z classes \/ ~ In 2%Z classes ->
     exists missing,
       pd.select train VQC.model_vars = inl (KeyErrorNotInIndex missing) /\
       (In "Pclass_1"%string missing <-> ~ In 1%Z classes) /\
       (In "Pclass_2"%string missing <-> ~ In 2%Z classes) /\
       ~ In "is_child"%string missing).
Proof.
  intros read_csv repr csv train0 train classes Hfile HP Hread Hage.
  destruct (cell_read_shape read_csv repr csv train0 Hfile Hread)
    as [c [sel [Hc [Hsel ->]]]].
  rewrite HP in Hc. injection Hc as <-.
  unfold VQC.cell_age in Hage.
  apply bind_inr in Hage. destruct Hage as [age0 [_ Hage]].
  apply bind_inr in Hage. destruct Hage as [age0' [_ Hage]].
  apply bind_inr in Hage. destruct Hage as [m [_ Hage]].
  apply bind_inr in Hage. destruct Hage as [age1 [_ Hage]].
  apply bind_inr in Hage. destruct Hage as [child [_ Hage]].
  cbn in Hage. injection Hage as <-.
  apply select_inr in Hsel.
  repeat match goal with
         | H : Forall2 _ (_ :: _) _ |- _ => inversion H; clear H; subst
         | H : Forall2 _ [] _ |- _ => inversion H; clear H; subst
         end.
  repeat match goal with
         | H : _ /\ _ |- _ => destruct H
         end.
  repeat match goal with
         | kc : (string * pd.column)%type |- _ => destruct kc
         end.
  cbn [fst snd] in *. subst.
  match goal with
  | H : pd.getcol (pd.setcol _ "Pclass" _) "Pclass" = inr _ |- _ =>
      rewrite getcol_setcol_same in H; injection H as <-
  end.
  match goal with
  | |- context [pd.select ?t VQC.model_vars] => set (frame := t)
  end.
  assert (Hclass : forall z : Z,
             has_column csv ("Pclass_" ++ pd.str_of_int z) = false ->
             (has_column frame ("Pclass_" ++ pd.str_of_int z) = true <->
              In z classes)).
  { intros z Hz. subst frame.
    set (k := ("Pclass_" ++ pd.str_of_int z)%string) in *.
    assert (Hk : forall s : string, In s ["Pclass"; "Age"; "is_child";
                                          "Sex"; "Embarked"]%string -> s <> k).
    { intros s Hs Heq. subst k. cbn in Hs, Heq.
      repeat (destruct Hs as [<-|Hs]; [discriminate Heq|]). exact Hs. }
    rewrite has_column_getcol.
    rewrite !getcol_setcol_other by (apply Hk; cbn; tauto).
    rewrite getcol_app_notin.
    2:{ intros Hin. apply names_setcol in Hin. destruct Hin as [Heq|Hin].
        - symmetry in Heq. revert Heq. apply Hk. cbn; tauto.
        - apply has_column_In in Hin. congruence. }
    rewrite <- has_column_getcol, has_column_In, names_get_dummies.
    cbn [pd.astype_str]. split.
    - intros [[col [Hin Hc]]|[k0 [v [cat [Hin [Hcat Heq]]]]]].
      + exfalso. cbn [In] in Hin.
        destruct Hin as [Hin|[Hin|[Hin|[]]]];
          apply (f_equal fst) in Hin; cbn [fst] in Hin;
          revert Hin; apply Hk; cbn; tauto.
      + cbn [In] in Hin.
        destruct Hin as [Hin|[Hin|[Hin|[]]]]; injection Hin as <- Hv;
          subst k; cbn in Heq; try discriminate Heq.
        injection Heq as Heq. subst cat.
        apply In_categories in Hcat. rewrite <- Hv in Hcat.
        apply in_map_iff in Hcat. destruct Hcat as [z' [Hz' Hin']].
        injection Hz' as Hz'. apply str_of_int_injective in Hz'.
        subst z'. exact Hin'.
    - intros Hin. right.
      exists "Pclass"%string, (map (fun z0 => Some (pd.str_of_int z0)) classes),
             (pd.str_of_int z).
      split; [left; reflexivity|]. split; [|reflexivity].
      apply In_categories, in_map_iff. exists z.
      split; [reflexivity | exact Hin]. }
  split; [exact Hclass|].
  intros H1 H2 Hno.
  pose proof (Hclass 1%Z H1) as Hiff1.
  pose proof (Hclass 2%Z H2) as Hiff2.
  change ("Pclass_" ++ pd.str_of_int 1)%string with "Pclass_1"%string in Hiff1.
  change ("Pclass_" ++ pd.str_of_int 2)%string with "Pclass_2"%string in Hiff2.
  assert (Hchild : has_column frame "is_child" = true).
  { rewrite has_column_getcol. unfold frame.
    rewrite getcol_setcol_same. reflexivity. }
  assert (Hin : forall k, In k (absent frame VQC.model_vars) <->
                          In k VQC.model_vars /\ has_column frame k = false).
  { intros k. unfold absent. rewrite filter_In.
    destruct (has_column frame k); cbn [negb]; intuition congruence. }
  exists (absent frame VQC.model_vars).
  split; [|split; [|split]].
  - unfold pd.select. rewrite missing_absent.
    destruct (absent frame VQC.model_vars) as [|k ks] eqn:Habs; [|reflexivity].
    exfalso.
    assert (Hnone : forall k, ~ (In k VQC.model_vars /\ has_column frame k = false)).
    { intros k Hk. apply Hin in Hk. exact Hk. }
    destruct Hno as [Hno|Hno]; apply Hno.
    + apply Hiff1. destruct (has_column frame "Pclass_1") eqn:E; [reflexivity|].
      exfalso. apply (Hnone "Pclass_1"%string). split; [cbn; tauto | exact E].
    + apply Hiff2. destruct (has_column frame "Pclass_2") eqn:E; [reflexivity|].
      exfalso. apply (Hnone "Pclass_2"%string). split; [cbn; tauto | exact E].
  - rewrite Hin. split.
    + intros [_ E] Hyes. apply Hiff1 in Hyes. congruence.
    + intros Habsent. split; [cbn; tauto|].
      destruct (has_column frame "Pclass_1") eqn:E; [|reflexivity].
      exfalso. apply Habsent, Hiff1. reflexivity.
  - rewrite Hin. split.
    + intros [_ E] Hyes. apply Hiff2 in Hyes. congruence.
    + intros Habsent. split; [cbn; tauto|].
      destruct (has_column frame "Pclass_2") eqn:E; [|reflexivity].
      exfalso. apply Habsent, Hiff2. reflexivity.
  - rewrite Hin. intros [_ E]. congruence.
Qed.

Lemma class_columns_follow_the_classes_present_witness :
  has_column Toy.train "Pclass_3" = true <->
  In 3%Z (Toy.repeat_rows 10 [3; 1; 2; 1]%Z).
Proof.
  refine (proj1 (class_columns_follow_the_classes_present
                   Toy.read_csv Toy.repr Toy.csv Toy.train0 Toy.train
                   (Toy.repeat_rows 10 [3; 1; 2; 1]%Z) _ _ _ _) 3%Z _);
    vm_compute; reflexivity.
Defined.

(** ** The model in the kernel *)

(** X22. The initialisation cell of the VQC notebook. Whatever the
    generator and the state of the kernel it is run in, the cell returns
    weights of shape (n_layers, n_qubits, 3) = (2, 4, 3) and the bias 0;
    and because it reseeds the generator first, run in two different
    kernels it returns the same weights and leaves the generator in the
    same state. *)
Theorem initialisation_cell_is_reproducible :
  (VQC.n_layers, VQC.n_qubits) = (2, 4)%nat /\
  forall (G O : Type) (seed : Z -> G) (standard_normal : G -> Q * G)
         (s s' : VQC.kernel G O),
    let run := VQC.cell_init seed standard_normal s in
    let run' := VQC.cell_init seed standard_normal s' in
    (exists weights_init,
        fst run = inr (weights_init, 0) /\
        np.has_shape VQC.n_layers VQC.n_qubits 3 weights_init) /\
    fst run = fst run' /\
    VQC.np_random (snd run) = VQC.np_random (snd run').
Proof.
  split; [reflexivity|].
  intros G O seed standard_normal s s'.
  unfold VQC.cell_init.
  cbn [bind Monad_M modify get eval ret fst snd VQC.set_random VQC.np_random].
  pose proof (randn_shape standard_normal VQC.n_layers VQC.n_qubits 3 (seed 0%Z))
    as H.
  destruct (np.randn standard_normal VQC.n_layers VQC.n_qubits 3 (seed 0%Z))
    as [r g].
  cbn [bind Monad_M modify get eval ret fst snd VQC.set_random VQC.np_random] in *.
  split; [|split; reflexivity].
  eexists. split; [reflexivity|]. apply scale_shape, H.
Qed.

Section Provenance.

Variable measure : Simulator.
Variables G O : Type.
Variable randint : nat -> nat -> nat -> G -> res (list nat) * G.
Variable adam_step :
  O ->
  (np.tensor -> Q -> list (list scalar) -> list Q -> res Q) ->
  np.tensor -> Q -> list (list scalar) -> list Q ->
  res (np.tensor * Q * O).
Variable X : list (list scalar).
Variable Y : list Q.
Variable weights_init : np.tensor.
Variable bias_init : Q.

Lemma vqc_body_from_step (batch it : nat) (s : VQC.kernel G O) :
  from_step measure adam_step X Y weights_init bias_init s ->
  from_step measure adam_step X Y weights_init bias_init
            (snd (VQC.loop_body measure randint adam_step X Y batch it s)).
Proof.
  intros Hs.
  assert (Hsame : forall s' : VQC.kernel G O,
             VQC.weights s' = VQC.weights s -> VQC.bias s' = VQC.bias s ->
             VQC.opt s' = VQC.opt s ->
             from_step measure adam_step X Y weights_init bias_init s').
  { intros s' Ew Eb Eo. unfold from_step. rewrite Ew, Eb, Eo. exact Hs. }
  unfold VQC.loop_body, VQC.opt_step.
  cbn -[VQC.predict VQC.accuracy VQC.cost np.take from_step].
  destruct (randint _ _ _ _) as [[e|index] g]; [apply Hsame; reflexivity|].
  destruct (np.take X index) as [e|X_batch] eqn:HX; [apply Hsame; reflexivity|].
  destruct (np.take Y index) as [e|Y_batch] eqn:HY; [apply Hsame; reflexivity|].
  cbn -[VQC.predict VQC.accuracy VQC.cost np.take from_step].
  destruct (adam_step _ _ _ _ _ _) as [e|[[w b] o]] eqn:Hstep;
    [apply Hsame; reflexivity|].
  assert (Hnew : forall s' : VQC.kernel G O,
             VQC.weights s' = w -> VQC.bias s' = b -> VQC.opt s' = o ->
             from_step measure adam_step X Y weights_init bias_init s').
  { intros s' Ew Eb Eo. right.
    exists (VQC.opt s), (VQC.weights s), (VQC.bias s), index, X_batch, Y_batch.
    rewrite Ew, Eb, Eo. split; [exact HX|]. split; [exact HY | exact Hstep]. }
  cbn -[VQC.predict VQC.accuracy VQC.cost np.take from_step].
  destruct (VQC.predict measure w b X) as [e|predictions];
    [apply Hnew; reflexivity|].
  destruct (VQC.accuracy Y predictions) as [e|acc]; [apply Hnew; reflexivity|].
  destruct (VQC.cost measure w b X Y) as [e|c]; apply Hnew; reflexivity.
Qed.

End Provenance.

(** X23. The training cell changes the model only through the
    optimiser. Whatever the simulator, the generator and the optimiser
    do, and whether the cell completes or raises, the weights and the
    bias it leaves in the kernel are the initial ones, or they are what
    a call of the optimiser's step returned, made with the notebook's
    cost function on a batch of rows and labels taken from X_train and
    Y_train at one array of indices. *)
Theorem training_cell_stores_what_the_step_returns
    (measure : Simulator) (G O : Type)
    (randint : nat -> nat -> nat -> G -> res (list nat) * G)
    (adam_step :
       O ->
       (np.tensor -> Q -> list (list scalar) -> list Q -> res Q) ->
       np.tensor -> Q -> list (list scalar) -> list Q ->
       res (np.tensor * Q * O))
    (weights_init : np.tensor) (bias_init : Q)
    (X_train : list (list scalar)) (Y_train : list Q) (batch : nat)
    (s : VQC.kernel G O) :
  from_step measure adam_step X_train Y_train weights_init bias_init
            (snd (VQC.cell_train measure randint adam_step
                                 weights_init bias_init X_train Y_train batch s)).
Proof.
  unfold VQC.cell_train, VQC.cell_train_for.
  cbn [bind Monad_M modify get eval ret fst snd].
  pose proof (for_invariant
                (fun _ s' => from_step measure adam_step X_train Y_train
                                       weights_init bias_init s')
                (fun s' => from_step measure adam_step X_train Y_train
                                     weights_init bias_init s')
                (Py.range VQC.n_it)
                (VQC.loop_body measure randint adam_step X_train Y_train batch))
    as H.
  cbv beta in H.
  assert (Hbody : forall (k a : nat) (s0 : VQC.kernel G O),
             nth_error (Py.range VQC.n_it) k = Some a ->
             from_step measure adam_step X_train Y_train weights_init bias_init s0 ->
             match VQC.loop_body measure randint adam_step X_train Y_train batch a s0
             with
             | (inr _, s') =>
                 from_step measure adam_step X_train Y_train weights_init bias_init s'
             | (inl _, s') =>
                 from_step measure adam_step X_train Y_train weights_init bias_init s'
             end).
  { intros k a s0 _ Hs0.
    pose proof (vqc_body_from_step measure G O randint adam_step X_train Y_train
                  weights_init bias_init batch a s0 Hs0) as Hb.
    destruct (VQC.loop_body measure randint adam_step X_train Y_train batch a s0)
      as [[e|u] s1]; exact Hb. }
  specialize (H Hbody (VQC.set_model weights_init bias_init s)
                (or_introl (conj eq_refl eq_refl))).
  destruct (for_ _ _ _) as [[e|u] s1]; exact H.
Qed.
